(** * Recipient normalisation of the team-reminders configuration page

    A shallow embedding of [app.py]: the Streamlit script that loads a
    loosely structured CSV of tenants, works out which columns hold the
    name, the phone number and the send flag, and stores a canonical
    three-column table in the session state.

    The script is embedded statement by statement.  Polars frames are
    ordered lists of named, typed columns; the Polars calls the script
    makes ([rename], [with_columns], [drop], [select], [cast]) are
    functions on such frames that return a Python exception where Polars
    raises one; the script itself runs in a small state-and-exception
    monad over the session state and the notices shown on the page.

    The schedule tab of the same script and the command-line sender
    [src/main.py] (the days left in the month, and the loop that sends
    one message per unpaid tenant) are embedded after it, the sender
    over Python's string operations and a provider that answers each
    request or raises. *)

From Stdlib Require Import Ascii String.
From stdpp Require Import base option list strings gmap.

(** ** Strings *)

(** [str.lower()] on the letters A-Z.  The keywords the script compares
    against are ASCII and contain no [k], so bytes outside A-Z never
    decide a comparison. *)
Definition lower_ascii (a : ascii) : ascii :=
  let n := nat_of_ascii a in
  if (65 <=? n)%nat && (n <=? 90)%nat then ascii_of_nat (n + 32) else a.

Fixpoint lower (s : string) : string :=
  match s with
  | EmptyString => EmptyString
  | String a s' => String (lower_ascii a) (lower s')
  end.

(** ** Python exceptions and results *)

Inductive Exn :=
  | DuplicateError
  | ColumnNotFoundError
  | SchemaError
  | ImportError
  | OtherError (text : string).

Inductive result (A : Type) :=
  | Ok (a : A)
  | Raise (e : Exn).
Arguments Ok {A} a.
Arguments Raise {A} e.

Definition rbind {A B} (r : result A) (k : A → result B) : result B :=
  match r with
  | Ok a => k a
  | Raise e => Raise e
  end.

#[global] Instance result_ret : MRet result := @Ok.
#[global] Instance result_bind : MBind result := λ A B k r, rbind r k.

(** ** Polars frames *)

Inductive DataType := Utf8 | Boolean.

Inductive Series :=
  | SUtf8 (vs : list (option string))
  | SBool (vs : list (option bool)).

Definition dtype (s : Series) : DataType :=
  match s with SUtf8 _ => Utf8 | SBool _ => Boolean end.

Definition series_len (s : Series) : nat :=
  match s with SUtf8 vs => length vs | SBool vs => length vs end.

(** A frame is its columns, in order.  Polars keeps the names distinct
    and the columns of one height; the operations below preserve that or
    raise. *)
Abbreviation DataFrame := (list (string * Series)).
Abbreviation Schema := (list (string * DataType)).

Definition columns (df : DataFrame) : list string := df.*1.

Definition schema (df : DataFrame) : Schema :=
  (λ cs, (cs.1, dtype cs.2)) <$> df.

Definition height (df : DataFrame) : nat :=
  match df with
  | [] => 0
  | (_, s) :: _ => series_len s
  end.

Fixpoint get_column (name : string) (df : DataFrame) : option Series :=
  match df with
  | [] => None
  | (c, s) :: rest => if decide (c = name) then Some s else get_column name rest
  end.

(** [pl.DataFrame(schema=...)]: no rows, the schema's columns. *)
Definition empty_frame (sch : Schema) : DataFrame :=
  (λ ct, (ct.1, match ct.2 with Utf8 => SUtf8 [] | Boolean => SBool [] end)) <$> sch.

(** [df.rename(mapping)]: a column named by a key takes the key's value
    as its new name, the others keep theirs.  Polars rebuilds the frame
    from the renamed columns and refuses one in which two columns share
    a name ([DuplicateError]); renaming a column to its own name changes
    nothing. *)
Definition rename (mapping : gmap string string) (df : DataFrame) : result DataFrame :=
  let df' := (λ cs, (default cs.1 (mapping !! cs.1), cs.2)) <$> df in
  if decide (NoDup (columns df')) then Ok df' else Raise DuplicateError.

(** [df.drop(name)]. *)
Definition drop (name : string) (df : DataFrame) : DataFrame :=
  filter (λ cs, cs.1 ≠ name) df.

(** [df.select(names)]. *)
Fixpoint select (names : list string) (df : DataFrame) : result DataFrame :=
  match names with
  | [] => Ok []
  | n :: rest =>
      match get_column n df with
      | None => Raise ColumnNotFoundError
      | Some s => rbind (select rest df) (λ out, Ok ((n, s) :: out))
      end
  end.

(** Casting one column, [strict=False]: a value that does not convert
    becomes null. *)
Definition bool_text (b : bool) : string := if b then "true" else "false".

Definition text_bool (s : string) : option bool :=
  if decide (s = "true") then Some true
  else if decide (s = "false") then Some false
  else None.

Definition cast_series (t : DataType) (s : Series) : Series :=
  match t, s with
  | Utf8, SUtf8 _ => s
  | Boolean, SBool _ => s
  | Utf8, SBool vs => SUtf8 ((λ v : option bool, bool_text <$> v) <$> vs)
  | Boolean, SUtf8 vs => SBool ((λ v : option string, v ≫= text_bool) <$> vs)
  end.

Fixpoint replace_column (name : string) (s : Series) (df : DataFrame) : DataFrame :=
  match df with
  | [] => []
  | (c, s0) :: rest =>
      if decide (c = name) then (c, s) :: rest else (c, s0) :: replace_column name s rest
  end.

(** [df.cast(schema, strict=False)]: every column the schema names is
    cast in place; a name the frame lacks is a [ColumnNotFoundError]. *)
Fixpoint cast (sch : Schema) (df : DataFrame) : result DataFrame :=
  match sch with
  | [] => Ok df
  | (c, t) :: rest =>
      match get_column c df with
      | None => Raise ColumnNotFoundError
      | Some s => cast rest (replace_column c (cast_series t s) df)
      end
  end.

(** ** Polars expressions *)

Inductive Expr :=
  | pl_col (name : string)
  | pl_lit (b : bool)
  | str_to_lowercase (e : Expr)
  | is_in (e : Expr) (values : list string)
  | pl_when (cond th ot : Expr).

(** Row by row: the [then] value where the condition is true, the
    [otherwise] value where it is false or null. *)
Definition choose {A} (cond : list (option bool)) (th ot : list A) : list A :=
  zip_with (λ c tf, if c is Some true then tf.1 else tf.2) cond (zip th ot).

Fixpoint eval (df : DataFrame) (e : Expr) : result Series :=
  match e with
  | pl_col name =>
      match get_column name df with
      | Some s => Ok s
      | None => Raise ColumnNotFoundError
      end
  | pl_lit b => Ok (SBool (replicate (height df) (Some b)))
  | str_to_lowercase e =>
      rbind (eval df e) (λ s,
        match s with
        | SUtf8 vs => Ok (SUtf8 ((λ v : option string, lower <$> v) <$> vs))
        | SBool _ => Raise SchemaError
        end)
  | is_in e values =>
      rbind (eval df e) (λ s,
        match s with
        | SUtf8 vs =>
            Ok (SBool ((λ v : option string, (λ x, bool_decide (x ∈ values)) <$> v) <$> vs))
        | SBool _ => Raise SchemaError
        end)
  | pl_when cond th ot =>
      rbind (eval df cond) (λ c,
      rbind (eval df th) (λ t,
      rbind (eval df ot) (λ o,
        match c, t, o with
        | SBool cs, SBool ts, SBool os => Ok (SBool (choose cs ts os))
        | SBool cs, SUtf8 ts, SUtf8 os => Ok (SUtf8 (choose cs ts os))
        | _, _, _ => Raise SchemaError
        end)))
  end.

(** [df.with_columns(e.alias(name))]: the column [name] is replaced
    where it stands, or added at the end. *)
Definition with_columns (e : Expr) (name : string) (df : DataFrame) : result DataFrame :=
  rbind (eval df e) (λ s,
    Ok (if decide (name ∈ columns df) then replace_column name s df
        else df ++ [(name, s)])).

(** ** The page: session state and notices *)

Inductive Message :=
  | NoFlagColumn (source : string)
      (* "No recognizable send flag column found in ... Defaulting SendFlag to True" *)
  | MissingColumns (missing : list string) (source : string)
      (* "Could not find required column(s): ..." / "Uploaded CSV must contain columns for: ..." *)
  | FileNotFound (source : string)
  | ProcessingError (source : string) (e : Exn)
  | UploadProcessed
  | EditorUnexpectedFormat
  | PandasRequired
  | EditError (e : Exn)
  | Saved (path : string)
  | SaveFailed (path : string) (e : Exn)
  | NothingToSave
  | NoValidData.

Inductive Level := Info | Warning | Error | Success.

(** [st.session_state.recipients_df] ([None]: the key is absent), the
    file under the path the script loads from and saves to ([None]: no
    such file; otherwise what [pl.read_csv(..., has_header=True,
    infer_schema_length=0)] makes of it), and the notices the run has put
    on the page, oldest first.  The settings and schedule entries of the
    session state play no part in the recipients code and are left out. *)
Record World := {
  recipients_df : option DataFrame;
  csv_file : option (result DataFrame);
  page : list (Level * Message)
}.

Definition M (A : Type) : Type := World → World * result A.

#[global] Instance M_ret : MRet M := λ A a w, (w, Ok a).
#[global] Instance M_bind : MBind M := λ A B k m w,
  match m w with
  | (w', Ok a) => k a w'
  | (w', Raise e) => (w', Raise e)
  end.

Definition lift {A} (r : result A) : M A := λ w, (w, r).

Definition notice (l : Level) (m : Message) : M unit := λ w,
  ({| recipients_df := recipients_df w;
      csv_file := csv_file w;
      page := page w ++ [(l, m)] |}, Ok tt).

Definition st_info := notice Info.
Definition st_warning := notice Warning.
Definition st_error := notice Error.
Definition st_success := notice Success.

Definition set_recipients_df (df : DataFrame) : M unit := λ w,
  ({| recipients_df := Some df; csv_file := csv_file w; page := page w |}, Ok tt).

Definition get_recipients_df : M (option DataFrame) := λ w, (w, Ok (recipients_df w)).

Definition os_path_exists : M bool := λ w, (w, Ok (bool_decide (is_Some (csv_file w)))).

(** [pl.read_csv(path, has_header=True, infer_schema_length=0)]. *)
Definition read_csv : M DataFrame := λ w,
  (w, match csv_file w with
      | Some read => read
      | None => Raise (OtherError "FileNotFoundError")
      end).

(** What [read_csv] makes of the file [df.write_csv(path)] writes: the
    same header, every column read as strings, a boolean written as
    [true] or [false], null as the empty field.  Delimiters, quoting and
    encoding are the CSV library's on both sides. *)
Definition written (df : DataFrame) : DataFrame :=
  (λ cs, (cs.1, cast_series Utf8 cs.2)) <$> df.

(** [df.write_csv(path)]; [io] is the failure of the operating system,
    if any. *)
Definition write_csv (io : option Exn) (df : DataFrame) : M unit := λ w,
  match io with
  | Some e => (w, Raise e)
  | None =>
      ({| recipients_df := recipients_df w;
          csv_file := Some (Ok (written df));
          page := page w |}, Ok tt)
  end.

(** [try: body except Exception as e: handler e]. *)
Definition try_except {A} (body : M A) (handler : Exn → M A) : M A := λ w,
  match body w with
  | (w', Ok a) => (w', Ok a)
  | (w', Raise e) => handler e w'
  end.

(** ** Shared declarations of the script *)

Definition recipients_schema : Schema :=
  [("Name", Utf8); ("PhoneNumber", Utf8); ("SendFlag", Boolean)].

(** The locals the two column scans leave behind. *)
Record NamePhone := {
  mapped_cols : gmap string string;
  found_name : bool;
  found_phone : bool
}.

Record FlagSource := {
  send_col_source : option string;
  send_flag_interpretation : bool
}.

(** The expression both flag branches build, up to the accepted values. *)
Definition flag_expr (source : string) (accepted : list string) : Expr :=
  pl_when (is_in (str_to_lowercase (pl_col source)) accepted)
    (pl_lit true) (pl_lit false).

(** ** Loading the default file (app.py, lines 39-166) *)

Module DefaultLoad.

Definition default_csv : string := "August Rent - Sheet1.csv".

Definition name_cols : list string := ["Name"; "Tenant"; "Contact"].
Definition phone_cols : list string := ["PhoneNumber"; "Phone"; "Mobile"].
Definition send_cols_map : gmap string bool :=
  list_to_map
    [("sendflag", true); ("send?", true); ("active", true);
     ("paid", false); ("false", false)].

(** One turn of the loop at lines 68-77. *)
Definition name_phone_step (st : NamePhone) (col : string) : NamePhone :=
  let col_lower := lower col in
  if negb (found_name st)
     && existsb (λ c, bool_decide (lower c = col_lower)) name_cols
  then {| mapped_cols := <[col := "Name"]> (mapped_cols st);
          found_name := true;
          found_phone := found_phone st |}
  else if negb (found_phone st)
          && existsb (λ c, bool_decide (lower c = col_lower)) phone_cols
  then {| mapped_cols := <[col := "PhoneNumber"]> (mapped_cols st);
          found_name := found_name st;
          found_phone := true |}
  else st.

Definition map_name_phone (cols : list string) : NamePhone :=
  foldl name_phone_step
    {| mapped_cols := ∅; found_name := false; found_phone := false |} cols.

(** The loop at lines 80-88; [break] ends the recursion. *)
Fixpoint find_send_col (mapped : gmap string string) (cols : list string) : FlagSource :=
  match cols with
  | [] => {| send_col_source := None; send_flag_interpretation := true |}
  | col :: rest =>
      let col_lower := lower col in
      if decide (mapped !! col = None) then
        match send_cols_map !! col_lower with
        | Some interpretation =>
            {| send_col_source := Some col;
               send_flag_interpretation := interpretation |}
        | None => find_send_col mapped rest
        end
      else find_send_col mapped rest
  end.

(** Lines 97-130: the flag column computed from its source, and the
    source dropped. *)
Definition flag_from_source (source : string) (interpretation : bool)
    (selected_df : DataFrame) : result DataFrame :=
  selected_df ←
    (if interpretation
     then with_columns (flag_expr source ["true"; "1"; "yes"; "y"]) "SendFlag" selected_df
     else with_columns (flag_expr source ["false"; "0"; "no"; "n"]) "SendFlag" selected_df);
  mret (if bool_decide (source ≠ "SendFlag") && bool_decide (source ∈ columns selected_df)
        then drop source selected_df
        else selected_df).

(** Lines 133-140. *)
Definition flag_default (selected_df : DataFrame) : M DataFrame :=
  st_warning (NoFlagColumn default_csv);;
  lift (with_columns (pl_lit true) "SendFlag" selected_df).

(** Lines 90-158, the branches after the scans. *)
Definition store (temp_df : DataFrame) (np : NamePhone) (fs : FlagSource) : M unit :=
  if found_name np && found_phone np then
    selected_df ← lift (rename (mapped_cols np) temp_df);
    selected_df ←
      match send_col_source fs with
      | Some source =>
          if decide (source = "") then flag_default selected_df
          else lift (flag_from_source source (send_flag_interpretation fs) selected_df)
      | None => flag_default selected_df
      end;
    let selected_columns := ["Name"; "PhoneNumber"; "SendFlag"] in
    out ← lift (select selected_columns selected_df ≫= cast recipients_schema);
    set_recipients_df out
  else
    let missing :=
      (if found_name np then [] else ["'Name' (or similar)"])
      ++ (if found_phone np then [] else ["'PhoneNumber' (or similar)"]) in
    st_warning (MissingColumns missing default_csv);;
    set_recipients_df (empty_frame recipients_schema).

(** Lines 39-166. *)
Definition load : M unit :=
  present ← get_recipients_df;
  if present is Some _ then mret tt else
  try_except
    (file_exists ← os_path_exists;
     if (file_exists : bool) then
       temp_df ← read_csv;
       let np := map_name_phone (columns temp_df) in
       let fs := find_send_col (mapped_cols np) (columns temp_df) in
       store temp_df np fs
     else
       st_info (FileNotFound default_csv);;
       set_recipients_df (empty_frame recipients_schema))
    (λ e,
       st_error (ProcessingError default_csv e);;
       set_recipients_df (empty_frame recipients_schema)).

End DefaultLoad.

(** ** Uploading a new CSV (app.py, lines 292-401) *)

Module Upload.

Definition uploaded_csv : string := "uploaded CSV".

Definition name_cols : list string := ["Name"; "Tenant"; "Contact"].
Definition phone_cols : list string := ["PhoneNumber"; "Phone"; "Mobile"].
Definition send_cols_map : gmap string bool :=
  list_to_map
    [("sendflag", true); ("send?", true); ("active", true);
     ("paid", false); ("false", false)].

(** One turn of the loop at lines 322-333. *)
Definition name_phone_step (st : NamePhone) (col : string) : NamePhone :=
  let col_lower := lower col in
  if negb (found_name st)
     && existsb (λ c, bool_decide (lower c = col_lower)) name_cols
  then {| mapped_cols := <[col := "Name"]> (mapped_cols st);
          found_name := true;
          found_phone := found_phone st |}
  else if negb (found_phone st)
          && existsb (λ c, bool_decide (lower c = col_lower)) phone_cols
  then {| mapped_cols := <[col := "PhoneNumber"]> (mapped_cols st);
          found_name := found_name st;
          found_phone := true |}
  else st.

Definition map_name_phone (cols : list string) : NamePhone :=
  foldl name_phone_step
    {| mapped_cols := ∅; found_name := false; found_phone := false |} cols.

(** The loop at lines 335-341. *)
Fixpoint find_send_col (mapped : gmap string string) (cols : list string) : FlagSource :=
  match cols with
  | [] => {| send_col_source := None; send_flag_interpretation := true |}
  | col :: rest =>
      let col_lower := lower col in
      if decide (mapped !! col = None) then
        match send_cols_map !! col_lower with
        | Some interpretation =>
            {| send_col_source := Some col;
               send_flag_interpretation := interpretation |}
        | None => find_send_col mapped rest
        end
      else find_send_col mapped rest
  end.

(** Lines 348-374. *)
Definition flag_from_source (source : string) (interpretation : bool)
    (selected_df : DataFrame) : result DataFrame :=
  selected_df ←
    (if interpretation
     then with_columns (flag_expr source ["true"; "1"; "yes"; "y"]) "SendFlag" selected_df
     else with_columns (flag_expr source ["false"; "0"; "no"; "n"]) "SendFlag" selected_df);
  mret (if bool_decide (source ≠ "SendFlag") && bool_decide (source ∈ columns selected_df)
        then drop source selected_df
        else selected_df).

(** Lines 377-383. *)
Definition flag_default (selected_df : DataFrame) : M DataFrame :=
  st_warning (NoFlagColumn uploaded_csv);;
  lift (with_columns (pl_lit true) "SendFlag" selected_df).

(** Lines 344-398. *)
Definition store (new_df : DataFrame) (np : NamePhone) (fs : FlagSource) : M unit :=
  if found_name np && found_phone np then
    selected_df ← lift (rename (mapped_cols np) new_df);
    selected_df ←
      match send_col_source fs with
      | Some source =>
          if decide (source = "") then flag_default selected_df
          else lift (flag_from_source source (send_flag_interpretation fs) selected_df)
      | None => flag_default selected_df
      end;
    let selected_columns := ["Name"; "PhoneNumber"; "SendFlag"] in
    out ← lift (select selected_columns selected_df ≫= cast recipients_schema);
    set_recipients_df out;;
    st_success UploadProcessed
  else
    let missing :=
      (if found_name np then [] else ["'Name' (or similar)"])
      ++ (if found_phone np then [] else ["'PhoneNumber' (or similar)"]) in
    st_error (MissingColumns missing uploaded_csv).

(** Lines 292-401.  [uploaded_file] is [None] while the radio button
    is on the existing list or no file has been chosen; otherwise it
    is what [pl.read_csv] makes of the uploaded bytes. *)
Definition upload (uploaded_file : option (result DataFrame)) : M unit :=
  match uploaded_file with
  | None => mret tt
  | Some read =>
      try_except
        (new_df ← lift read;
         let np := map_name_phone (columns new_df) in
         let fs := find_send_col (mapped_cols np) (columns new_df) in
         store new_df np fs)
        (λ e, st_error (ProcessingError "uploaded file" e))
  end.

End Upload.

(** ** Editing and saving (app.py, lines 403-482) *)

(** What [st.data_editor] hands back. *)
Inductive Edited :=
  | EditedNone
  | EditedPolars (df : DataFrame)
  | EditedPandas (from_pandas : result DataFrame)
  | EditedOther.

(** Lines 410-467.  [data_editor] is the widget: it is shown the current
    table and returns the user's version of it. *)
Definition edit (data_editor : DataFrame → Edited) : M unit :=
  current ← get_recipients_df;
  match data_editor (default (empty_frame recipients_schema) current) with
  | EditedNone => mret tt
  | EditedPolars edited_df =>
      set_recipients_df edited_df;;
      out ← lift (cast recipients_schema edited_df);
      set_recipients_df out
  | EditedPandas from_pandas =>
      try_except
        (converted ← lift from_pandas;
         set_recipients_df converted;;
         out ← lift (cast recipients_schema converted);
         set_recipients_df out)
        (λ e, match e with
              | ImportError => st_error PandasRequired
              | _ => st_error (EditError e)
              end)
  | EditedOther => st_warning EditorUnexpectedFormat
  end.

(** Lines 469-482. *)
Definition save_path : string := "August Rent - Sheet1.csv".

Definition save (clicked : bool) (io : option Exn) : M unit :=
  if clicked then
    current_df ← get_recipients_df;
    match current_df with
    | Some df =>
        if negb (bool_decide (height df = 0)) then
          try_except
            (write_csv io df;; st_success (Saved save_path))
            (λ e, st_error (SaveFailed save_path e))
        else st_warning NothingToSave
    | None => st_warning NoValidData
    end
  else mret tt.

(** ** One run of the script *)

Record Inputs := {
  uploaded_file : option (result DataFrame);
  data_editor : DataFrame → Edited;
  save_clicked : bool;
  write_failure : option Exn
}.

Definition script (i : Inputs) : M unit :=
  DefaultLoad.load;;
  Upload.upload (uploaded_file i);;
  edit (data_editor i);;
  save (save_clicked i) (write_failure i).

(** Streamlit runs the script again on every interaction, on a cleared
    page; the session state and the disk carry over. *)
Definition rerun (i : Inputs) (w : World) : World * result unit :=
  script i {| recipients_df := recipients_df w; csv_file := csv_file w; page := [] |}.

(** * The schedule tab (app.py, lines 207-279) *)

(** [st.session_state.schedule]: a dictionary; a key may be absent. *)
Record Schedule := {
  type : option string;
  days_before_end : option Z;
  day_of_month : option Z
}.

(** [l.index(x)]. *)
Fixpoint list_index (l : list string) (x : string) : result nat :=
  match l with
  | [] => Raise (OtherError "ValueError")
  | y :: rest => if decide (y = x) then Ok 0 else i ← list_index rest x; mret (S i)
  end.

(** The widgets of the tab: the select box is given the options and the
    index to start from and returns the option chosen; the number input
    is given its bounds and the value to start from and returns the
    number entered, or raises. *)
Record ScheduleWidgets := {
  selectbox : list string → nat → string;
  number_input : Z → Z → Z → result Z
}.

(** What [st.write] says at the end of a branch. *)
Inductive Said :=
  | DaysBeforeEnd (n : Z)
  | OnDay (n : Z)
  | ManuallyOnly.

Definition schedule_options : list string :=
  ["End of Month"; "Specific Day of Month"; "Manual Trigger Only"].

(** Lines 213-221. *)
Definition schedule_index (schedule : Schedule) : result nat :=
  let current_schedule_type := default "Manual Trigger Only" (type schedule) in
  match list_index schedule_options current_schedule_type with
  | Ok i => Ok i
  | Raise _ => list_index schedule_options "Manual Trigger Only"
  end.

(** Lines 211-271. *)
Definition schedule_tab (ui : ScheduleWidgets) (schedule : Schedule)
    : Schedule * result Said :=
  match schedule_index schedule with
  | Raise e => (schedule, Raise e)
  | Ok index =>
      let schedule_type := selectbox ui schedule_options index in
      if decide (schedule_type = "End of Month") then
        let current_days_before := default 3%Z (days_before_end schedule) in
        match number_input ui 0%Z 10%Z current_days_before with
        | Raise e => (schedule, Raise e)
        | Ok days_before =>
            ({| type := Some "End of Month";
                days_before_end := Some days_before;
                day_of_month := day_of_month schedule |},
             Ok (DaysBeforeEnd days_before))
        end
      else if decide (schedule_type = "Specific Day of Month") then
        let current_day_of_month := default 1%Z (day_of_month schedule) in
        match number_input ui 1%Z 31%Z current_day_of_month with
        | Raise e => (schedule, Raise e)
        | Ok day =>
            ({| type := Some "Specific Day";
                days_before_end := days_before_end schedule;
                day_of_month := Some day |},
             Ok (OnDay day))
        end
      else
        ({| type := Some "Manual";
            days_before_end := days_before_end schedule;
            day_of_month := day_of_month schedule |},
         Ok ManuallyOnly)
  end.

(** The schedule a session starts with (lines 22-26). *)
Definition initial_schedule : Schedule :=
  {| type := Some "End of Month"; days_before_end := Some 3%Z; day_of_month := None |}.

(** * The command-line sender (src/main.py) *)

(** Strings are sequences of code points below 256. *)

(** [s.split(sep)] for a one-character separator: always at least one
    piece. *)
Fixpoint split (sep : ascii) (s : string) : list string :=
  match s with
  | EmptyString => [EmptyString]
  | String c s' =>
      if decide (c = sep) then EmptyString :: split sep s'
      else match split sep s' with
           | piece :: pieces => String c piece :: pieces
           | [] => [String c EmptyString]
           end
  end.

(** [str.isspace] on one character. *)
Definition isspace (c : ascii) : bool :=
  let n := nat_of_ascii c in
  (Nat.leb 9 n && Nat.leb n 13) || (Nat.leb 28 n && Nat.leb n 32)
  || Nat.eqb n 133 || Nat.eqb n 160.

Fixpoint lstrip (s : string) : string :=
  match s with
  | EmptyString => EmptyString
  | String c s' => if isspace c then lstrip s' else s
  end.

Fixpoint rstrip (s : string) : string :=
  match s with
  | EmptyString => EmptyString
  | String c s' =>
      match rstrip s' with
      | EmptyString => if isspace c then EmptyString else String c EmptyString
      | rest => String c rest
      end
  end.

(** [s.strip()]. *)
Definition strip (s : string) : string := rstrip (lstrip s).

(** [l[i]]. *)
Definition getitem {A} (l : list A) (i : nat) : result A :=
  match l !! i with
  | Some x => Ok x
  | None => Raise (OtherError "IndexError")
  end.

(** [str(n)] for a natural number. *)
Fixpoint decimal_go (fuel n : nat) (acc : string) : string :=
  match fuel with
  | 0 => acc
  | S fuel' =>
      let acc' := String (ascii_of_nat (48 + Nat.modulo n 10)) acc in
      if Nat.ltb n 10 then acc' else decimal_go fuel' (Nat.div n 10) acc'
  end.

Definition str_nat (n : nat) : string := decimal_go (S n) n EmptyString.

(** Zero padding on the left, as [%04d] and [%02d] do. *)
Fixpoint zeros (k : nat) (s : string) : string :=
  match k with
  | 0 => s
  | S k' => String "0"%char (zeros k' s)
  end.

Definition zfill (width : nat) (s : string) : string :=
  zeros (width - String.length s) s.

(** [int(s)] on a string of decimal digits; anything else is a
    [ValueError] here (signs, blanks and underscores, which Python also
    reads, do not occur in what the code passes). *)
Definition digit_value (c : ascii) : option Z :=
  let n := nat_of_ascii c in
  if Nat.leb 48 n && Nat.leb n 57 then Some (Z.of_nat (n - 48)) else None.

Fixpoint int_go (s : string) (acc : Z) : option Z :=
  match s with
  | EmptyString => Some acc
  | String c s' =>
      match digit_value c with
      | Some d => int_go s' (acc * 10 + d)%Z
      | None => None
      end
  end.

Definition int (s : string) : result Z :=
  match s with
  | EmptyString => Raise (OtherError "ValueError")
  | _ => match int_go s 0%Z with
         | Some z => Ok z
         | None => Raise (OtherError "ValueError")
         end
  end.

(** [datetime.date]; [str(d)] is [YYYY-MM-DD]. *)
Record date := { year : nat; month : nat; day : nat }.

Definition str_date (d : date) : string :=
  zfill 4 (str_nat (year d)) +:+ "-" +:+ zfill 2 (str_nat (month d))
  +:+ "-" +:+ zfill 2 (str_nat (day d)).

(** [calendar.isleap] and [calendar.monthrange(year, month)[-1]], as
    Python's library defines them. *)
Definition isleap (y : nat) : bool :=
  Nat.eqb (Nat.modulo y 4) 0
  && (negb (Nat.eqb (Nat.modulo y 100) 0) || Nat.eqb (Nat.modulo y 400) 0).

Definition mdays : list nat := [0; 31; 28; 31; 30; 31; 30; 31; 31; 30; 31; 30; 31].

Definition monthrange_last (y m : nat) : result nat :=
  if Nat.leb 1 m && Nat.leb m 12
  then Ok (default 0 (mdays !! m) + (if Nat.eqb m 2 && isleap y then 1 else 0))
  else Raise (OtherError "IllegalMonthError").

(** The account the messages go out from ([settings]). *)
Record Settings := {
  TWILIO_ACCOUNT_SID : string;
  TWILIO_AUTH_TOKEN : string;
  TWILIO_PHONE_NUMBER : string
}.

(** One call of [client.messages.create]. *)
Record Request := { body : string; from_ : string; to : string }.

(** The SMS provider: what constructing the client does, and what
    creating a message answers (the message's sid, or an exception),
    which may depend on the requests made before. *)
Record Twilio := {
  Client : string → string → result unit;
  messages_create : list Request → Request → result string
}.

(** The lines [print] writes. *)
Inductive Printed :=
  | Skipping (name : string)
      (* "Skipping message for {name}: Phone number is missing." *)
  | SentTo (name sid : string)
      (* "Sent to: {name} | [{message.sid}]" *)
  | FailedTo (name phone_number : string) (e : Exn).
      (* "Failed to send message to {name} ({phone_number}): {e}" *)

(** Standard output and the requests made of the provider, oldest
    first. *)
Record Console := {
  stdout : list Printed;
  requests : list Request
}.

Module Main.

(** [days_until_end_month] (lines 10-17); [today] is
    [datetime.date.today()]. *)
Definition days_until_end_month (today : date) : result Z :=
  last ← monthrange_last (year today) (month today);
  let end_of_month := {| year := year today; month := month today; day := last |} in
  let end_ := split "-" (str_date end_of_month) in
  let current := split "-" (str_date today) in
  e ← getitem end_ 2 ≫= int;
  c ← getitem current 2 ≫= int;
  mret (e - c)%Z.

(** [str(x)] for an optional string inside an f-string. *)
Definition str_opt (x : option string) : string := default "None" x.

(** Truth of an optional string: [None] and the empty string are false. *)
Definition truthy (x : option string) : bool :=
  match x with
  | Some s => negb (bool_decide (s = ""))
  | None => false
  end.

(** [send_message] (lines 20-42). *)
Definition send_message (settings : Settings) (twilio : Twilio)
    (phone_number name : option string) (c : Console) : Console * result unit :=
  if negb (truthy phone_number) then
    ({| stdout := stdout c ++ [Skipping (str_opt name)]; requests := requests c |}, Ok tt)
  else
    match Client twilio (TWILIO_ACCOUNT_SID settings) (TWILIO_AUTH_TOKEN settings) with
    | Raise e => (c, Raise e)
    | Ok _ =>
        let request :=
          {| body := "Hello " +:+ (if truthy name then str_opt name else "Tenant")
                     +:+ ", your reminder message here. [This part needs completion]";
             from_ := TWILIO_PHONE_NUMBER settings;
             to := str_opt phone_number |} in
        match messages_create twilio (requests c) request with
        | Ok sid =>
            ({| stdout := stdout c ++ [SentTo (str_opt name) sid];
                requests := requests c ++ [request] |}, Ok tt)
        | Raise e =>
            ({| stdout := stdout c
                          ++ [FailedTo (str_opt name) (str_opt phone_number) e];
                requests := requests c ++ [request] |}, Ok tt)
        end
    end.

(** The body of the loop of [main] (lines 47-52) for one line of the
    file. *)
Definition main_line (settings : Settings) (twilio : Twilio) (tenant : string)
    (c : Console) : Console * result unit :=
  let tenant_info := split "," tenant in
  match (if Nat.ltb 3 (length tenant_info)
         then x ← getitem tenant_info 2; mret (bool_decide (x = "FALSE"))
         else mret false) with
  | Raise e => (c, Raise e)
  | Ok false => (c, Ok tt)
  | Ok true =>
      match getitem tenant_info 3, getitem tenant_info 0 with
      | Ok field3, Ok field0 =>
          let phone_number := strip field3 in
          send_message settings twilio (Some phone_number) (Some field0) c
      | Raise e, _ | _, Raise e => (c, Raise e)
      end
  end.

Fixpoint main_loop (settings : Settings) (twilio : Twilio) (tenants : list string)
    (c : Console) : Console * result unit :=
  match tenants with
  | [] => (c, Ok tt)
  | tenant :: rest =>
      match main_line settings twilio tenant c with
      | (c', Ok _) => main_loop settings twilio rest c'
      | (c', Raise e) => (c', Raise e)
      end
  end.

(** [main] (lines 45-52); [spreadsheet] is what [open] gives: the lines
    of the file, each with its line end, or the exception. *)
Definition main (settings : Settings) (twilio : Twilio)
    (spreadsheet : result (list string)) (c : Console) : Console * result unit :=
  match spreadsheet with
  | Raise e => (c, Raise e)
  | Ok tenants => main_loop settings twilio tenants c
  end.

End Main.

(** * Vocabulary of the specification

    The notions the claims are worded in -- roles, polarity, flag
    values, the canonical table, the single normaliser and what its
    two callers do with its outcome -- and the tables used as examples. *)

(** The roles as the specification words them: the lowercased column
    name is one of the synonyms. *)
Definition name_synonyms : list string := ["name"; "tenant"; "contact"].

Definition phone_synonyms : list string := ["phonenumber"; "phone"; "mobile"].

Definition is_name_col (c : string) : bool := bool_decide (lower c ∈ name_synonyms).

Definition is_phone_col (c : string) : bool := bool_decide (lower c ∈ phone_synonyms).

(** Binding a role to the column found for it, if any. *)
Definition bind_role (role : string) (c : option string) (m : gmap string string)
    : gmap string string :=
  match c with
  | Some c => <[c := role]> m
  | None => m
  end.

(** The first column that qualifies, unless the role is taken already. *)
Definition first_unless (found : bool) (p : string → bool) (cols : list string)
    : option string :=
  if found then None else find p cols.

(** The polarity lookup as the specification gives it: [true] is
    POSITIVE (truthy source values mean send), [false] is NEGATIVE. *)
Definition positive_flag_names : list string := ["sendflag"; "send?"; "active"].

Definition negative_flag_names : list string := ["paid"; "false"].

Definition polarity_lookup (k : string) : option bool :=
  if bool_decide (k ∈ positive_flag_names) then Some true
  else if bool_decide (k ∈ negative_flag_names) then Some false
  else None.

(** A column is left for the flag scan when neither role took it. *)
Definition unbound (cols : list string) (c : string) : bool :=
  negb (bool_decide (find is_name_col cols = Some c))
  && negb (bool_decide (find is_phone_col cols = Some c)).

(** The recognised spellings, per polarity, as the specification lists
    them, and the flag they give a raw value (null: no value). *)
Definition accepted_values (polarity : bool) : list string :=
  if polarity then ["true"; "1"; "yes"; "y"] else ["false"; "0"; "no"; "n"].

Definition flag_value (polarity : bool) (raw : option string) : bool :=
  match raw with
  | Some v => bool_decide (lower v ∈ accepted_values polarity)
  | None => false
  end.

(** The flag column a string column gives under a polarity. *)
Definition flag_series (polarity : bool) (vs : list (option string)) : Series :=
  SBool ((λ v, Some (flag_value polarity v)) <$> vs).

(** Example tables. *)
Definition tenants : DataFrame :=
  [("Name", SUtf8 [Some "Alice"; Some "Bob"; Some "Carol"]);
   ("Phone", SUtf8 [Some "+15551230000"; Some ""; None]);
   ("Paid", SUtf8 [Some "FALSE"; Some "TRUE"; Some "maybe"])].

(** The roles still unresolved after the scan, as the pages name them. *)
Definition missing_roles (cols : list string) : list string :=
  (if find is_name_col cols is Some _ then [] else ["'Name' (or similar)"])
  ++ (if find is_phone_col cols is Some _ then [] else ["'PhoneNumber' (or similar)"]).

(** The handler of the default load: the error notice and the empty
    table. *)
Definition default_handler (e : Exn) (w : World) : World * result unit :=
  ({| recipients_df := Some (empty_frame recipients_schema);
      csv_file := csv_file w;
      page := page w ++ [(Error, ProcessingError DefaultLoad.default_csv e)] |},
   Ok tt).

(** The handler of the upload: the error notice; the stored table stays. *)
Definition upload_handler (e : Exn) (w : World) : World * result unit :=
  ({| recipients_df := recipients_df w;
      csv_file := csv_file w;
      page := page w ++ [(Error, ProcessingError "uploaded file" e)] |},
   Ok tt).

(** A run inside [try] followed by its [except] branch. *)
Definition handled (handler : Exn → World → World * result unit)
    (run : World * result unit) : World * result unit :=
  match run with
  | (w', Ok a) => (w', Ok a)
  | (w', Raise e) => handler e w'
  end.

Definition foo_bar : DataFrame :=
  [("Foo", SUtf8 [Some "1"; Some "2"]); ("Bar", SUtf8 [Some "a"; Some "b"])].

(** A session that has just started: nothing stored, an empty page. *)
Definition fresh (file : option (result DataFrame)) : World :=
  {| recipients_df := None; csv_file := file; page := [] |}.

(** What [pl.read_csv(..., infer_schema_length=0)] returns: distinct
    column names, every column a string column, all of one height. *)
Record raw_frame (df : DataFrame) : Prop := {
  raw_names : NoDup (columns df);
  raw_strings : ∀ c s, get_column c df = Some s →
                  ∃ vs, s = SUtf8 vs ∧ length vs = height df
}.

(** The name a column carries after [rename]. *)
Definition renamed (m : gmap string string) (c : string) : string :=
  default c (m !! c).

(** The values of a string column. *)
Definition text_of (s : option Series) : list (option string) :=
  match s with
  | Some (SUtf8 vs) => vs
  | _ => []
  end.

(** The flag column the specification describes for a raw frame: the
    interpreted values of the flag source, or true throughout when there
    is none. *)
Definition send_flags (df : DataFrame) (fs : FlagSource) : Series :=
  match send_col_source fs with
  | Some source =>
      flag_series (send_flag_interpretation fs) (text_of (get_column source df))
  | None => SBool (replicate (height df) (Some true))
  end.

(** The warning that goes with the default. *)
Definition default_notice (source : string) (fs : FlagSource) : list (Level * Message) :=
  match send_col_source fs with
  | Some _ => []
  | None => [(Warning, NoFlagColumn source)]
  end.

(** Renaming the bound columns does not run into a column that already
    carries the canonical name. *)
Definition no_clash (cols : list string) (n p : string) : Prop :=
  ("Name" ∈ cols → n = "Name") ∧ ("PhoneNumber" ∈ cols → p = "PhoneNumber").

(** The single normaliser the specification asks for: a pure function
    of the raw table that returns the canonical table (and whether the
    flag defaulted to true), the unresolved roles, or the exception of
    the frame library (and whether the default had been announced by
    then). *)
Inductive Outcome :=
  | Stored (table : DataFrame) (defaulted : bool)
  | Missing (roles : list string)
  | Raised (e : Exn) (defaulted : bool).

(** The flag step of the normaliser: whether the default applied, and
    the frame with its SendFlag column. *)
Definition flag_column (fs : FlagSource) (selected_df : DataFrame)
    : bool * result DataFrame :=
  match send_col_source fs with
  | Some source =>
      if decide (source = "")
      then (true, with_columns (pl_lit true) "SendFlag" selected_df)
      else (false, DefaultLoad.flag_from_source source
                     (send_flag_interpretation fs) selected_df)
  | None => (true, with_columns (pl_lit true) "SendFlag" selected_df)
  end.

Definition normalize (raw : DataFrame) : Outcome :=
  let np := DefaultLoad.map_name_phone (columns raw) in
  let fs := DefaultLoad.find_send_col (mapped_cols np) (columns raw) in
  if found_name np && found_phone np then
    match rename (mapped_cols np) raw with
    | Raise e => Raised e false
    | Ok selected_df =>
        let (defaulted, flagged) := flag_column fs selected_df in
        match flagged ≫= λ selected_df,
                select ["Name"; "PhoneNumber"; "SendFlag"] selected_df
                ≫= cast recipients_schema with
        | Ok table => Stored table defaulted
        | Raise e => Raised e defaulted
        end
    end
  else
    Missing ((if found_name np then [] else ["'Name' (or similar)"])
             ++ (if found_phone np then [] else ["'PhoneNumber' (or similar)"])).

(** What each caller does with the outcome. *)
Definition announce (defaulted : bool) (source : string) : list (Level * Message) :=
  if defaulted then [(Warning, NoFlagColumn source)] else [].

Definition default_caller (o : Outcome) (w : World) : World * result unit :=
  match o with
  | Stored table defaulted =>
      ({| recipients_df := Some table;
          csv_file := csv_file w;
          page := page w ++ announce defaulted DefaultLoad.default_csv |}, Ok tt)
  | Missing roles =>
      ({| recipients_df := Some (empty_frame recipients_schema);
          csv_file := csv_file w;
          page := page w ++ [(Warning, MissingColumns roles DefaultLoad.default_csv)] |},
       Ok tt)
  | Raised e defaulted =>
      ({| recipients_df := recipients_df w;
          csv_file := csv_file w;
          page := page w ++ announce defaulted DefaultLoad.default_csv |}, Raise e)
  end.

Definition upload_caller (o : Outcome) (w : World) : World * result unit :=
  match o with
  | Stored table defaulted =>
      ({| recipients_df := Some table;
          csv_file := csv_file w;
          page := (page w ++ announce defaulted Upload.uploaded_csv)
                  ++ [(Success, UploadProcessed)] |}, Ok tt)
  | Missing roles =>
      ({| recipients_df := recipients_df w;
          csv_file := csv_file w;
          page := page w ++ [(Error, MissingColumns roles Upload.uploaded_csv)] |},
       Ok tt)
  | Raised e defaulted =>
      ({| recipients_df := recipients_df w;
          csv_file := csv_file w;
          page := page w ++ announce defaulted Upload.uploaded_csv |}, Raise e)
  end.

(** The flag column holds a boolean in every row. *)
Definition flags_total (t : DataFrame) : Prop :=
  ∃ flags, get_column "SendFlag" t = Some (SBool (Some <$> flags)).

(** The stored table has the schema of [recipients_schema]: exactly its
    three columns, in its types. *)
Definition schema_ok (w : World) : Prop :=
  ∃ t, recipients_df w = Some t ∧ schema t = recipients_schema.

(** The editor widget edits cells and adds or removes rows; the columns
    it returns are the columns it was shown. *)
Definition editor_keeps_columns (editor : DataFrame → Edited) : Prop :=
  ∀ df, match editor df with
        | EditedPolars df' | EditedPandas (Ok df') => columns df' = columns df
        | _ => True
        end.

(** The worlds a session passes through: one run of the script per
    interaction. *)
Fixpoint runs (inputs : list Inputs) (w : World) : World :=
  match inputs with
  | [] => w
  | i :: rest => runs rest (rerun i w).1
  end.

Definition show_only : Inputs :=
  {| uploaded_file := None; data_editor := EditedPolars;
     save_clicked := false; write_failure := None |}.

Definition upload_and_save (df : DataFrame) : Inputs :=
  {| uploaded_file := Some (Ok df); data_editor := λ _, EditedOther;
     save_clicked := true; write_failure := None |}.

Definition busy (file : option (result DataFrame)) : World :=
  {| recipients_df := None; csv_file := file;
     page := [(Warning, NothingToSave); (Info, FileNotFound "other.csv")] |}.

(** A recipient table as the specification has it: the three canonical
    columns, one value per row in each, and a flag for every row. *)
Definition canonical (t : DataFrame) : Prop :=
  ∃ names phones flags,
    t = [("Name", SUtf8 names); ("PhoneNumber", SUtf8 phones);
         ("SendFlag", SBool (Some <$> flags))]
    ∧ length names = length flags
    ∧ length phones = length flags.

Definition two_recipients : DataFrame :=
  [("Name", SUtf8 [Some "Alice"; Some "Bob"]);
   ("PhoneNumber", SUtf8 [Some "+15551230000"; Some ""]);
   ("SendFlag", SBool [Some true; Some false])].

Definition holding (t : DataFrame) : World :=
  {| recipients_df := Some t; csv_file := None; page := [] |}.

(** The table row by row, as the specification writes its examples. *)
Record Recipient := {
  name : option string;
  phoneNumber : option string;
  sendFlag : option bool
}.

Definition records (t : DataFrame) : list Recipient :=
  match get_column "Name" t, get_column "PhoneNumber" t, get_column "SendFlag" t with
  | Some (SUtf8 names), Some (SUtf8 phones), Some (SBool flags) =>
      zip_with (λ n pf, {| name := n; phoneNumber := pf.1; sendFlag := pf.2 |})
        names (zip phones flags)
  | _, _, _ => []
  end.

(** The specification's example: header Name, Phone, Active. *)
Definition alice_bob : DataFrame :=
  [("Name", SUtf8 [Some "Alice"; Some "Bob"]);
   ("Phone", SUtf8 [Some "+15551230000"; Some ""]);
   ("Active", SUtf8 [Some "TRUE"; Some "no"])].

(** A later column that already carries the canonical name: Tenant is
    the first name column and is renamed to Name, which the third column
    is called already. *)
Definition tenant_and_name : DataFrame :=
  [("Tenant", SUtf8 [Some "Alice"; Some "Bob"]);
   ("Phone", SUtf8 [Some "+15551230000"; Some "+15551230001"]);
   ("Name", SUtf8 [Some "A. Smith"; Some "B. Jones"]);
   ("Active", SUtf8 [Some "TRUE"; Some "no"])].

Definition mobile_and_phonenumber : DataFrame :=
  [("Name", SUtf8 [Some "Alice"; Some "Bob"]);
   ("Mobile", SUtf8 [Some "+15551230000"; Some "+15551230001"]);
   ("PhoneNumber", SUtf8 [Some "555-0000"; Some "555-0001"])].

Definition name_phone_only : DataFrame :=
  [("Name", SUtf8 [Some "Alice"; Some "Bob"]);
   ("Phone", SUtf8 [Some "+15551230000"; None])].

(** Two runs that differ at most in the file on disk: the same stored
    table, the same notices, the same result. *)
Definition same_session (r1 r2 : World * result unit) : Prop :=
  recipients_df r1.1 = recipients_df r2.1 ∧ page r1.1 = page r2.1 ∧ r1.2 = r2.2.

(** A step of the script that does not look at the file on disk. *)
Definition blind (m : M unit) : Prop :=
  ∀ w1 w2, recipients_df w1 = recipients_df w2 → page w1 = page w2 →
           same_session (m w1) (m w2).

(** The frame the editor is shown. *)
Definition shown (w : World) : DataFrame :=
  default (empty_frame recipients_schema) (recipients_df w).

(** A table with a flag the editor left empty. *)
Definition unticked : DataFrame :=
  [("Name", SUtf8 [Some "Alice"; Some "Bob"]);
   ("PhoneNumber", SUtf8 [Some "+15551230000"; None]);
   ("SendFlag", SBool [Some true; None])].

Definition idle (editor : DataFrame → Edited) : Inputs :=
  {| uploaded_file := None; data_editor := editor;
     save_clicked := false; write_failure := None |}.

(** A user who picks the specific day and leaves the number as it is. *)
Definition picks_day : ScheduleWidgets :=
  {| selectbox := λ _ _, "Specific Day of Month";
     number_input := λ _ _ value, Ok value |}.

(** The number of days of a month. *)
Definition days_in_month (y m : nat) : nat :=
  default 0 (mdays !! m) + (if Nat.eqb m 2 && isleap y then 1 else 0).

(** Whether a character occurs in a string, and how often. *)
Fixpoint count_char (c : ascii) (s : string) : nat :=
  match s with
  | EmptyString => 0
  | String c' s' => (if decide (c' = c) then 1 else 0) + count_char c s'
  end.

(** A line of the spreadsheet that [main] acts on: more than three
    comma-separated fields, the third exactly FALSE. *)
Definition qualifies (tenant : string) : bool :=
  Nat.ltb 3 (length (split "," tenant))
  && bool_decide (split "," tenant !! 2 = Some "FALSE").

(** The phone number and the name [main] takes from a line. *)
Definition phone_of (tenant : string) : string :=
  strip (default "" (split "," tenant !! 3)).

Definition name_of (tenant : string) : string :=
  default "" (split "," tenant !! 0).

Definition greeting (name : string) : string :=
  "Hello " +:+ (if bool_decide (name = "") then "Tenant" else name)
  +:+ ", your reminder message here. [This part needs completion]".

(** The request a line leads to, if any. *)
Definition request_for (settings : Settings) (tenant : string) : option Request :=
  if qualifies tenant && negb (bool_decide (phone_of tenant = ""))
  then Some {| body := greeting (name_of tenant);
               from_ := TWILIO_PHONE_NUMBER settings;
               to := phone_of tenant |}
  else None.


(** What [main] prints for lines it sends nothing for. *)
Definition skipping (tenants : list string) : list Printed :=
  omap (λ tenant, if qualifies tenant then Some (Skipping (name_of tenant)) else None)
       tenants.

(** What [main] prints for the lines of the spreadsheet; [sent] are the
    requests made so far. *)
Fixpoint transcript (settings : Settings) (twilio : Twilio) (sent : list Request)
    (tenants : list string) : list Printed :=
  match tenants with
  | [] => []
  | tenant :: rest =>
      if qualifies tenant then
        match request_for settings tenant with
        | None => Skipping (name_of tenant) :: transcript settings twilio sent rest
        | Some request =>
            match messages_create twilio sent request with
            | Ok sid => SentTo (name_of tenant) sid
            | Raise e => FailedTo (name_of tenant) (phone_of tenant) e
            end :: transcript settings twilio (sent ++ [request]) rest
        end
      else transcript settings twilio sent rest
  end.

Definition leap_day : date := {| year := 2024; month := 2; day := 3 |}.

Definition account : Settings :=
  {| TWILIO_ACCOUNT_SID := "AC0"; TWILIO_AUTH_TOKEN := "token";
     TWILIO_PHONE_NUMBER := "+14155550100" |}.

(** A provider that refuses one number. *)
Definition flaky : Twilio :=
  {| Client := λ _ _, Ok tt;
     messages_create := λ _ r, if decide (to r = "+2") then Raise (OtherError "21211")
                               else Ok "SM1" |}.

(** A provider whose client cannot be constructed. *)
Definition no_credentials : Twilio :=
  {| Client := λ _ _, Raise (OtherError "TwilioException");
     messages_create := λ _ _, Ok "SM1" |}.

Definition rent_sheet : list string :=
  ["Name,Rent,Paid,Phone" +:+ String "010"%char "";
   "Al,10,FALSE, +1 " +:+ String "010"%char "";
   "Bo,10,TRUE,+3" +:+ String "010"%char "";
   "Cy,10,FALSE,+2" +:+ String "010"%char "";
   "Di,10,FALSE," +:+ String "010"%char "";
   "short,FALSE" +:+ String "010"%char ""].

(** The lines of the file the page writes for [two_recipients]. *)
Definition canonical_lines : list string :=
  ["Name,PhoneNumber,SendFlag" +:+ String "010"%char "";
   "Alice,+15551230000,true" +:+ String "010"%char "";
   "Bob,,false" +:+ String "010"%char ""].

Definition blank_sheet : list string :=
  ["Name,Rent,Paid,Phone" +:+ String "010"%char "";
   "Di,10,FALSE," +:+ String "010"%char "";
   "Ed,10,FALSE,  " +:+ String "010"%char ""].

Definition nothing_yet : Console := {| stdout := []; requests := [] |}.

(** * Column resolution *)

(** Membership in a list given by its elements. *)
Ltac split_elem :=
  repeat match goal with
  | H : _ ∈ _ :: _ |- _ => apply elem_of_cons in H as [H|H]
  | H : _ ∈ [] |- _ => by apply elem_of_nil in H
  end.

Ltac solve_elem :=
  simpl in *; split_elem; subst; simpl in *; try done; try discriminate;
  try (exfalso;
       match goal with H : _ ∉ _ |- _ => apply H end;
       rewrite !elem_of_cons; naive_solver).

Section Resolution.

Lemma any_name_cols x :
  existsb (λ c, bool_decide (lower c = x)) DefaultLoad.name_cols
  = bool_decide (x ∈ name_synonyms).
Proof.
  unfold DefaultLoad.name_cols, name_synonyms. cbn [existsb].
  change (lower "Name") with "name". change (lower "Tenant") with "tenant".
  change (lower "Contact") with "contact".
  repeat case_bool_decide; solve_elem.
Qed.

Lemma any_phone_cols x :
  existsb (λ c, bool_decide (lower c = x)) DefaultLoad.phone_cols
  = bool_decide (x ∈ phone_synonyms).
Proof.
  unfold DefaultLoad.phone_cols, phone_synonyms. cbn [existsb].
  change (lower "PhoneNumber") with "phonenumber".
  change (lower "Phone") with "phone". change (lower "Mobile") with "mobile".
  repeat case_bool_decide; solve_elem.
Qed.

Lemma roles_disjoint c : is_name_col c = true → is_phone_col c = false.
Proof.
  unfold is_name_col, is_phone_col, name_synonyms, phone_synonyms.
  intros H%bool_decide_eq_true. apply bool_decide_eq_false.
  intros H'. split_elem; congruence.
Qed.

Lemma name_phone_step_cases st c :
  DefaultLoad.name_phone_step st c =
    if negb (found_name st) && is_name_col c
    then {| mapped_cols := <[c := "Name"]> (mapped_cols st);
            found_name := true; found_phone := found_phone st |}
    else if negb (found_phone st) && is_phone_col c
    then {| mapped_cols := <[c := "PhoneNumber"]> (mapped_cols st);
            found_name := found_name st; found_phone := true |}
    else st.
Proof.
  unfold DefaultLoad.name_phone_step. cbv zeta.
  by rewrite any_name_cols, any_phone_cols.
Qed.

Lemma name_phone_fold cols : ∀ st,
  foldl DefaultLoad.name_phone_step st cols =
    {| mapped_cols :=
         bind_role "PhoneNumber" (first_unless (found_phone st) is_phone_col cols)
           (bind_role "Name" (first_unless (found_name st) is_name_col cols)
              (mapped_cols st));
       found_name := found_name st || bool_decide (is_Some (find is_name_col cols));
       found_phone := found_phone st || bool_decide (is_Some (find is_phone_col cols)) |}.
Proof.
  induction cols as [|c cols IH]; intros [m fn fp]; simpl.
  - by destruct fn, fp.
  - rewrite IH, name_phone_step_cases. simpl.
    destruct (is_name_col c) eqn:Hn.
    + pose proof (roles_disjoint _ Hn) as Hp.
      destruct fn, fp; simpl; by rewrite ?Hn, ?Hp.
    + destruct (is_phone_col c) eqn:Hp;
        destruct fn, fp; simpl; rewrite ?Hn, ?Hp; simpl; try done.
      destruct (find is_name_col cols) as [n|] eqn:Hf; simpl; [|done].
      f_equal. apply insert_insert_ne.
      apply find_some in Hf as [_ Hn']. congruence.
Qed.

Lemma map_name_phone_spec cols :
  DefaultLoad.map_name_phone cols =
    {| mapped_cols :=
         bind_role "PhoneNumber" (find is_phone_col cols)
           (bind_role "Name" (find is_name_col cols) ∅);
       found_name := bool_decide (is_Some (find is_name_col cols));
       found_phone := bool_decide (is_Some (find is_phone_col cols)) |}.
Proof. unfold DefaultLoad.map_name_phone. by rewrite name_phone_fold. Qed.

Lemma upload_map_name_phone cols :
  Upload.map_name_phone cols = DefaultLoad.map_name_phone cols.
Proof. reflexivity. Qed.

Lemma upload_find_send_col mapped cols :
  Upload.find_send_col mapped cols = DefaultLoad.find_send_col mapped cols.
Proof. reflexivity. Qed.

Lemma first_name_not_first_phone cols n p :
  find is_name_col cols = Some n → find is_phone_col cols = Some p → n ≠ p.
Proof.
  intros [_ Hn]%find_some [_ Hp]%find_some ->.
  apply roles_disjoint in Hn. congruence.
Qed.

Lemma bound_role cols c role :
  bind_role "PhoneNumber" (find is_phone_col cols)
    (bind_role "Name" (find is_name_col cols) ∅) !! c = Some role →
  role = "Name" ∨ role = "PhoneNumber".
Proof.
  destruct (find is_name_col cols), (find is_phone_col cols); simpl;
    rewrite ?lookup_insert_Some, ?lookup_empty;
    intuition (simplify_eq; eauto; congruence).
Qed.

Lemma bound_to_name cols c :
  bind_role "PhoneNumber" (find is_phone_col cols)
    (bind_role "Name" (find is_name_col cols) ∅) !! c = Some "Name"
  ↔ find is_name_col cols = Some c.
Proof.
  destruct (find is_name_col cols) as [n|] eqn:Hn,
           (find is_phone_col cols) as [p|] eqn:Hp; simpl;
    rewrite ?lookup_insert_Some, ?lookup_empty;
    try pose proof (first_name_not_first_phone _ _ _ Hn Hp);
    intuition (simplify_eq; eauto; congruence).
Qed.

Lemma bound_to_phone cols c :
  bind_role "PhoneNumber" (find is_phone_col cols)
    (bind_role "Name" (find is_name_col cols) ∅) !! c = Some "PhoneNumber"
  ↔ find is_phone_col cols = Some c.
Proof.
  destruct (find is_name_col cols) as [n|] eqn:Hn,
           (find is_phone_col cols) as [p|] eqn:Hp; simpl;
    rewrite ?lookup_insert_Some, ?lookup_empty;
    try pose proof (first_name_not_first_phone _ _ _ Hn Hp);
    intuition (simplify_eq; eauto; congruence).
Qed.
End Resolution.

(** C1.  Both copies of the name/phone scan (default load, lines 67-77;
    upload, lines 322-333) bind, in one left-to-right pass over the
    column names, the first column whose lowercased name is one of
    name/tenant/contact to Name and the first column whose lowercased
    name is one of phonenumber/phone/mobile to PhoneNumber, each
    independently of the other; nothing else is bound, and no column
    qualifies for both roles. *)
Theorem name_phone_first_match (cols : list string) :
  let np := DefaultLoad.map_name_phone cols in
  Upload.map_name_phone cols = np
  ∧ found_name np = bool_decide (is_Some (find is_name_col cols))
  ∧ found_phone np = bool_decide (is_Some (find is_phone_col cols))
  ∧ (∀ c, mapped_cols np !! c = Some "Name" ↔ find is_name_col cols = Some c)
  ∧ (∀ c, mapped_cols np !! c = Some "PhoneNumber" ↔ find is_phone_col cols = Some c)
  ∧ (∀ c role, mapped_cols np !! c = Some role → role = "Name" ∨ role = "PhoneNumber")
  ∧ (∀ c, ¬ (is_name_col c = true ∧ is_phone_col c = true)).
Proof.
  cbv zeta. split; [reflexivity|].
  rewrite map_name_phone_spec; simpl.
  split_and!; try done.
  - apply bound_to_name.
  - apply bound_to_phone.
  - intros c role. apply bound_role.
  - intros c [Hn Hp]. apply roles_disjoint in Hn. congruence.
Qed.

Example first_match_wins :
  mapped_cols (DefaultLoad.map_name_phone ["Mobile"; "CONTACT"; "Name"; "phone"])
  = <["Mobile" := "PhoneNumber"]> (<["CONTACT" := "Name"]> ∅).
Proof. reflexivity. Qed.

Section FlagSource.

Lemma send_cols_map_lookup k : DefaultLoad.send_cols_map !! k = polarity_lookup k.
Proof.
  unfold DefaultLoad.send_cols_map, list_to_map. cbn [foldr fst snd].
  destruct (decide (k = "sendflag")) as [->|?]; [by rewrite lookup_insert_eq|].
  rewrite lookup_insert_ne by done.
  destruct (decide (k = "send?")) as [->|?]; [by rewrite lookup_insert_eq|].
  rewrite lookup_insert_ne by done.
  destruct (decide (k = "active")) as [->|?]; [by rewrite lookup_insert_eq|].
  rewrite lookup_insert_ne by done.
  destruct (decide (k = "paid")) as [->|?]; [by rewrite lookup_insert_eq|].
  rewrite lookup_insert_ne by done.
  destruct (decide (k = "false")) as [->|?]; [by rewrite lookup_insert_eq|].
  rewrite lookup_insert_ne, lookup_empty by done.
  unfold polarity_lookup, positive_flag_names, negative_flag_names.
  repeat case_bool_decide; try done; split_elem; congruence.
Qed.

Lemma find_ext {A} (p q : A → bool) l :
  (∀ x, p x = q x) → find p l = find q l.
Proof. intros E. induction l as [|x l IH]; simpl; [done|]. by rewrite E, IH. Qed.

Lemma find_send_col_spec mapped cols :
  DefaultLoad.find_send_col mapped cols =
    match find (λ c, bool_decide (mapped !! c = None)
                     && bool_decide (is_Some (polarity_lookup (lower c)))) cols with
    | Some c => {| send_col_source := Some c;
                   send_flag_interpretation := default true (polarity_lookup (lower c)) |}
    | None => {| send_col_source := None; send_flag_interpretation := true |}
    end.
Proof.
  induction cols as [|c cols IH]; simpl; [done|].
  rewrite send_cols_map_lookup, IH.
  case_decide as Hm; destruct (polarity_lookup (lower c)) as [b|] eqn:E;
    repeat case_bool_decide; simpl; try done.
  all: try (exfalso; eauto; fail).
  all: try (by match goal with H : is_Some None |- _ => destruct H end).
  by rewrite E.
Qed.

Lemma not_mapped_unbound cols c :
  bool_decide (mapped_cols (DefaultLoad.map_name_phone cols) !! c = None)
  = unbound cols c.
Proof.
  rewrite map_name_phone_spec; simpl. unfold unbound.
  pose proof (bound_to_name cols c) as Hn.
  pose proof (bound_to_phone cols c) as Hp.
  destruct (bind_role "PhoneNumber" _ _ !! c) as [role|] eqn:E.
  - destruct (bound_role _ _ _ E) as [-> | ->].
    + rewrite bool_decide_eq_false_2 by done.
      by rewrite (bool_decide_eq_true_2 _ (proj1 Hn eq_refl)).
    + rewrite bool_decide_eq_false_2 by done.
      rewrite (bool_decide_eq_true_2 (find is_phone_col cols = _) (proj1 Hp eq_refl)).
      by rewrite andb_false_r.
  - rewrite bool_decide_eq_true_2 by done.
    rewrite !bool_decide_eq_false_2; [done|..].
    + intros H. apply Hp in H. congruence.
    + intros H. apply Hn in H. congruence.
Qed.

End FlagSource.

(** C3.  In both copies of the flag scan (default load, lines 79-88;
    upload, lines 335-341) the flag source is the first column, in the
    original column order, that neither role has taken and whose
    lowercased name is a key of the polarity lookup -- sendflag, send?
    and active are POSITIVE, paid and false are NEGATIVE -- and its
    polarity is the lookup's; the scan ends there.  With no such column
    there is no flag source. *)
Theorem flag_source_first_match (cols : list string) :
  let fs := DefaultLoad.find_send_col (mapped_cols (DefaultLoad.map_name_phone cols)) cols in
  Upload.find_send_col (mapped_cols (Upload.map_name_phone cols)) cols = fs
  ∧ match find (λ c, unbound cols c && bool_decide (is_Some (polarity_lookup (lower c)))) cols with
    | Some c =>
        send_col_source fs = Some c
        ∧ polarity_lookup (lower c) = Some (send_flag_interpretation fs)
    | None => send_col_source fs = None
    end
  ∧ (∀ k, polarity_lookup k = Some true ↔ k ∈ ["sendflag"; "send?"; "active"])
  ∧ (∀ k, polarity_lookup k = Some false ↔ k ∈ ["paid"; "false"])
  ∧ (∀ k, DefaultLoad.send_cols_map !! k = polarity_lookup k)
  ∧ (∀ k, Upload.send_cols_map !! k = polarity_lookup k).
Proof.
  cbv zeta. split; [reflexivity|].
  rewrite find_send_col_spec.
  rewrite (find_ext
             (λ c, bool_decide (mapped_cols (DefaultLoad.map_name_phone cols) !! c = None)
                   && bool_decide (is_Some (polarity_lookup (lower c))))
             (λ c, unbound cols c
                   && bool_decide (is_Some (polarity_lookup (lower c)))))
    by (intros c; by rewrite not_mapped_unbound).
  split_and!.
  - destruct (find _ cols) as [c|] eqn:E; simpl; [|done].
    split; [done|].
    apply find_some in E as [_ [_ [b Hb]%bool_decide_eq_true]%andb_true_iff].
    by rewrite Hb.
  - intros k. unfold polarity_lookup, positive_flag_names, negative_flag_names.
    repeat case_bool_decide; split; intros Hk; try done; solve_elem.
  - intros k. unfold polarity_lookup, positive_flag_names, negative_flag_names.
    repeat case_bool_decide; split; intros Hk; try done; solve_elem.
  - apply send_cols_map_lookup.
  - apply send_cols_map_lookup.
Qed.

Example flag_scan_stops_at_first :
  DefaultLoad.find_send_col
    (mapped_cols (DefaultLoad.map_name_phone ["Name"; "Paid"; "Active"; "Phone"]))
    ["Name"; "Paid"; "Active"; "Phone"]
  = {| send_col_source := Some "Paid"; send_flag_interpretation := false |}.
Proof. reflexivity. Qed.

(** * Frames: lookups after each operation *)

Section Frames.
Implicit Types (df : DataFrame) (s : Series) (name : string).

Lemma get_column_Some df name s : get_column name df = Some s → name ∈ columns df.
Proof.
  induction df as [|[c s0] df IH]; simpl; [done|].
  case_decide; subst; intros Hs; [left | right; auto].
Qed.

Lemma get_column_None df name : get_column name df = None ↔ name ∉ columns df.
Proof.
  induction df as [|[c s0] df IH]; simpl.
  - split; [intros _; apply not_elem_of_nil | done].
  - rewrite not_elem_of_cons. case_decide; subst; intuition congruence.
Qed.

Lemma get_column_is_Some df name : name ∈ columns df → is_Some (get_column name df).
Proof.
  intros H. destruct (get_column name df) eqn:E; [eauto|].
  by apply get_column_None in E.
Qed.

Lemma columns_replace name s df : columns (replace_column name s df) = columns df.
Proof.
  induction df as [|[c s0] df IH]; simpl; [done|].
  case_decide; simpl; [done|]. f_equal. apply IH.
Qed.

Lemma get_column_replace_eq name s df :
  name ∈ columns df → get_column name (replace_column name s df) = Some s.
Proof.
  induction df as [|[c s0] df IH]; simpl.
  - by intros ?%elem_of_nil.
  - intros H. case_decide as E; simpl.
    + by rewrite decide_True.
    + rewrite decide_False by done. apply IH.
      apply elem_of_cons in H as [->|H]; done.
Qed.

Lemma get_column_replace_ne name name' s df :
  name ≠ name' → get_column name' (replace_column name s df) = get_column name' df.
Proof.
  intros Hne. induction df as [|[c s0] df IH]; simpl; [done|].
  case_decide as E; simpl.
  - subst. by rewrite !decide_False by done.
  - case_decide; [done|apply IH].
Qed.

Lemma get_column_app df df' name :
  get_column name (df ++ df') =
    match get_column name df with
    | Some s => Some s
    | None => get_column name df'
    end.
Proof.
  induction df as [|[c s0] df IH]; simpl; [done|]. by case_decide.
Qed.

Lemma get_column_drop_ne name name' df :
  name ≠ name' → get_column name' (drop name df) = get_column name' df.
Proof.
  intros Hne. unfold drop. induction df as [|[c s0] df IH]; [done|].
  destruct (decide (c = name)) as [->|Hc].
  - rewrite filter_cons_False by (simpl; tauto). simpl.
    by rewrite decide_False.
  - rewrite filter_cons_True by done. simpl. by rewrite IH.
Qed.

Lemma columns_drop name df : columns (drop name df) = filter (λ c, c ≠ name) (columns df).
Proof.
  unfold drop, columns. induction df as [|[c s0] df IH]; [done|].
  destruct (decide (c = name)) as [->|Hc].
  - rewrite fmap_cons. simpl.
    rewrite !filter_cons_False by (simpl; tauto). apply IH.
  - rewrite fmap_cons. simpl.
    rewrite !filter_cons_True by done. simpl. f_equal. apply IH.
Qed.

Lemma choose_replicate {A} (cs : list (option bool)) (x y : A) :
  choose cs (replicate (length cs) x) (replicate (length cs) y)
  = (λ c, if c is Some true then x else y) <$> cs.
Proof.
  unfold choose. induction cs as [|c cs IH]; simpl; [done|]. by rewrite IH.
Qed.

(** The flag expression on a string column: row by row, whether the
    lowercased value is one of the accepted ones; null is not. *)
Lemma eval_flag_expr df source accepted vs :
  get_column source df = Some (SUtf8 vs) →
  length vs = height df →
  eval df (flag_expr source accepted)
  = Ok (SBool ((λ v : option string,
                  Some (match v with
                        | Some x => bool_decide (lower x ∈ accepted)
                        | None => false
                        end)) <$> vs)).
Proof.
  intros Hc Hh. unfold flag_expr. simpl. rewrite Hc. simpl.
  rewrite <- Hh.
  replace (length vs) with
    (length ((λ v : option string,
                (λ x, bool_decide (x ∈ accepted)) <$> v)
             <$> ((λ v : option string, lower <$> v) <$> vs)))
    by (by rewrite !length_fmap).
  rewrite choose_replicate, <- !list_fmap_compose.
  do 2 f_equal. apply list_fmap_ext. intros _ [x|] _; simpl; [|done].
  by destruct (bool_decide _).
Qed.

Lemma with_columns_get e name df s :
  eval df e = Ok s →
  ∃ out, with_columns e name df = Ok out
         ∧ get_column name out = Some s
         ∧ (∀ name', name' ≠ name → get_column name' out = get_column name' df).
Proof.
  intros He. unfold with_columns. rewrite He. simpl.
  eexists; split; [done|]. case_decide as Hin.
  - split; [by apply get_column_replace_eq|].
    intros ??. by apply get_column_replace_ne.
  - apply get_column_None in Hin. split.
    + rewrite get_column_app, Hin. simpl. by rewrite decide_True.
    + intros name' Hne. rewrite get_column_app.
      destruct (get_column name' df); [done|]. simpl. by rewrite decide_False.
Qed.

End Frames.

(** * Flag values *)

Section FlagValues.

Lemma upload_flag_from_source source polarity df :
  Upload.flag_from_source source polarity df
  = DefaultLoad.flag_from_source source polarity df.
Proof. reflexivity. Qed.

Lemma flag_from_source_ok (selected_df : DataFrame) source polarity vs :
  get_column source selected_df = Some (SUtf8 vs) →
  length vs = height selected_df →
  ∃ out,
    DefaultLoad.flag_from_source source polarity selected_df = Ok out
    ∧ get_column "SendFlag" out = Some (flag_series polarity vs)
    ∧ (∀ name, name ≠ "SendFlag" → name ≠ source →
         get_column name out = get_column name selected_df).
Proof.
  intros Hc Hh. unfold DefaultLoad.flag_from_source.
  assert (∃ mid,
    (if polarity
     then with_columns (flag_expr source ["true"; "1"; "yes"; "y"]) "SendFlag" selected_df
     else with_columns (flag_expr source ["false"; "0"; "no"; "n"]) "SendFlag" selected_df)
    = Ok mid
    ∧ get_column "SendFlag" mid = Some (flag_series polarity vs)
    ∧ (∀ name, name ≠ "SendFlag" → get_column name mid = get_column name selected_df))
    as (mid & -> & Hflag & Hrest).
  { destruct polarity;
      (edestruct with_columns_get as (mid & ? & ? & ?);
       [by apply eval_flag_expr|]); eauto. }
  simpl. eexists; split; [done|].
  case_bool_decide as Hs; simpl.
  - (* the source is not the flag column itself *)
    case_bool_decide; simpl.
    + split; [by rewrite get_column_drop_ne|].
      intros name ??. rewrite get_column_drop_ne by done. auto.
    + split; [done|]. auto.
  - split; [done|]. auto.
Qed.

End FlagValues.

(** C2.  Where a flag source was resolved, both copies of the flag
    branches (default load, lines 95-130; upload, lines 347-374) compute
    each row's SendFlag from the lowercased raw value of that column:
    under POSITIVE polarity it is true exactly for true, 1, yes, y;
    under NEGATIVE polarity exactly for false, 0, no, n; every other
    value, and a missing one, gives false. *)
Theorem flag_interpretation (selected_df : DataFrame) (source : string)
    (polarity : bool) (vs : list (option string)) :
  get_column source selected_df = Some (SUtf8 vs) →
  length vs = height selected_df →
  ∃ out,
    DefaultLoad.flag_from_source source polarity selected_df = Ok out
    ∧ Upload.flag_from_source source polarity selected_df = Ok out
    ∧ get_column "SendFlag" out
      = Some (SBool ((λ v, Some (flag_value polarity v)) <$> vs))
    ∧ (∀ v, flag_value true (Some v) = true ↔ lower v ∈ ["true"; "1"; "yes"; "y"])
    ∧ (∀ v, flag_value false (Some v) = true ↔ lower v ∈ ["false"; "0"; "no"; "n"])
    ∧ (∀ p, flag_value p None = false).
Proof.
  intros Hc Hh.
  destruct (flag_from_source_ok selected_df source polarity vs Hc Hh)
    as (out & Hout & Hflag & _).
  exists out. split; [done|]. split; [exact Hout|].
  split_and!; try done; intros v; apply bool_decide_eq_true.
Qed.

Lemma flag_interpretation_witness :
  ∃ out,
    DefaultLoad.flag_from_source "Paid" false tenants = Ok out
    ∧ Upload.flag_from_source "Paid" false tenants = Ok out
    ∧ get_column "SendFlag" out
      = Some (SBool ((λ v, Some (flag_value false v)) <$>
                       [Some "FALSE"; Some "TRUE"; Some "maybe"]))
    ∧ (∀ v, flag_value true (Some v) = true ↔ lower v ∈ ["true"; "1"; "yes"; "y"])
    ∧ (∀ v, flag_value false (Some v) = true ↔ lower v ∈ ["false"; "0"; "no"; "n"])
    ∧ (∀ p, flag_value p None = false).
Proof.
  apply (flag_interpretation tenants "Paid" false
           [Some "FALSE"; Some "TRUE"; Some "maybe"]); reflexivity.
Defined.

Example positive_spellings :
  flag_value true <$> [Some "TRUE"; Some "1"; Some "Yes"; Some "y"; Some "maybe"; None]
  = [true; true; true; true; false; false].
Proof. reflexivity. Qed.

Example negative_spellings :
  flag_value false <$> [Some "FALSE"; Some "TRUE"; Some "No"; Some ""]
  = [true; false; true; false].
Proof. reflexivity. Qed.

(** * Missing columns *)

(** Running the monad: the steps that neither branch nor fail. *)
Ltac run_script :=
  unfold mbind, M_bind, mret, M_ret, lift, try_except,
    get_recipients_df, os_path_exists, read_csv,
    st_info, st_warning, st_error, st_success, notice, set_recipients_df;
  cbn -[DefaultLoad.store Upload.store DefaultLoad.map_name_phone
        Upload.map_name_phone DefaultLoad.find_send_col Upload.find_send_col
        rename select cast with_columns empty_frame].

Section Running.

Lemma load_present w df0 :
  recipients_df w = Some df0 → DefaultLoad.load w = (w, Ok tt).
Proof. intros H. unfold DefaultLoad.load. run_script. by rewrite H. Qed.

Lemma load_fresh w df :
  recipients_df w = None → csv_file w = Some (Ok df) →
  DefaultLoad.load w
  = handled default_handler
      (DefaultLoad.store df (DefaultLoad.map_name_phone (columns df))
         (DefaultLoad.find_send_col
            (mapped_cols (DefaultLoad.map_name_phone (columns df))) (columns df)) w).
Proof.
  intros Hfresh Hfile. unfold DefaultLoad.load. run_script.
  rewrite Hfresh, Hfile. run_script. rewrite Hfile.
  by destruct (DefaultLoad.store _ _ _ _) as [w' [[]|e]].
Qed.

Lemma load_unreadable w e :
  recipients_df w = None → csv_file w = Some (Raise e) →
  DefaultLoad.load w = default_handler e w.
Proof.
  intros Hfresh Hfile. unfold DefaultLoad.load. run_script.
  rewrite Hfresh, Hfile. run_script. by rewrite Hfile.
Qed.

Lemma load_absent w :
  recipients_df w = None → csv_file w = None →
  DefaultLoad.load w
  = ({| recipients_df := Some (empty_frame recipients_schema);
        csv_file := None;
        page := page w ++ [(Info, FileNotFound DefaultLoad.default_csv)] |}, Ok tt).
Proof.
  intros Hfresh Hfile. unfold DefaultLoad.load. run_script.
  rewrite Hfresh, Hfile. run_script. by rewrite Hfile.
Qed.

Lemma upload_read w df :
  Upload.upload (Some (Ok df)) w
  = handled upload_handler
      (Upload.store df (Upload.map_name_phone (columns df))
         (Upload.find_send_col
            (mapped_cols (Upload.map_name_phone (columns df))) (columns df)) w).
Proof.
  unfold Upload.upload. run_script.
  by destruct (Upload.store _ _ _ _) as [w' [[]|e]].
Qed.

End Running.

Section Missing.

Lemma missing_branch cols :
  find is_name_col cols = None ∨ find is_phone_col cols = None →
  found_name (DefaultLoad.map_name_phone cols)
  && found_phone (DefaultLoad.map_name_phone cols) = false
  ∧ (if found_name (DefaultLoad.map_name_phone cols) then []
     else ["'Name' (or similar)"])
    ++ (if found_phone (DefaultLoad.map_name_phone cols) then []
        else ["'PhoneNumber' (or similar)"])
    = missing_roles cols.
Proof.
  rewrite map_name_phone_spec. unfold missing_roles. simpl.
  destruct (find is_name_col cols), (find is_phone_col cols); simpl;
    intros [?|?]; done.
Qed.

Lemma default_store_missing df w :
  find is_name_col (columns df) = None ∨ find is_phone_col (columns df) = None →
  DefaultLoad.store df (DefaultLoad.map_name_phone (columns df))
    (DefaultLoad.find_send_col
       (mapped_cols (DefaultLoad.map_name_phone (columns df))) (columns df)) w
  = ({| recipients_df := Some (empty_frame recipients_schema);
        csv_file := csv_file w;
        page := page w ++ [(Warning,
                  MissingColumns (missing_roles (columns df)) DefaultLoad.default_csv)] |},
     Ok tt).
Proof.
  intros [Hb Hm]%missing_branch. unfold DefaultLoad.store.
  rewrite Hb, Hm. reflexivity.
Qed.

Lemma upload_store_missing df w :
  find is_name_col (columns df) = None ∨ find is_phone_col (columns df) = None →
  Upload.store df (Upload.map_name_phone (columns df))
    (Upload.find_send_col
       (mapped_cols (Upload.map_name_phone (columns df))) (columns df)) w
  = ({| recipients_df := recipients_df w;
        csv_file := csv_file w;
        page := page w ++ [(Error,
                  MissingColumns (missing_roles (columns df)) Upload.uploaded_csv)] |},
     Ok tt).
Proof.
  intros [Hb Hm]%missing_branch. unfold Upload.store.
  change (Upload.map_name_phone (columns df))
    with (DefaultLoad.map_name_phone (columns df)).
  rewrite Hb, Hm. reflexivity.
Qed.

End Missing.

(** C4.  When the name role, the phone role or both cannot be resolved,
    normalisation produces no table from the input and names every
    unresolved role in a notice; nothing is raised.  The default load
    (lines 149-158) warns and starts from the empty table; the upload
    (lines 390-398) shows the message as an error notice and leaves the
    stored table as it was. *)
Theorem missing_columns_soft_failure (df : DataFrame) (w : World) :
  find is_name_col (columns df) = None ∨ find is_phone_col (columns df) = None →
  let missing := missing_roles (columns df) in
  (find is_name_col (columns df) = None ↔ "'Name' (or similar)" ∈ missing)
  ∧ (find is_phone_col (columns df) = None ↔ "'PhoneNumber' (or similar)" ∈ missing)
  ∧ (recipients_df w = None → csv_file w = Some (Ok df) →
       DefaultLoad.load w
       = ({| recipients_df := Some (empty_frame recipients_schema);
             csv_file := csv_file w;
             page := page w ++ [(Warning, MissingColumns missing DefaultLoad.default_csv)] |},
          Ok tt))
  ∧ Upload.upload (Some (Ok df)) w
    = ({| recipients_df := recipients_df w;
          csv_file := csv_file w;
          page := page w ++ [(Error, MissingColumns missing Upload.uploaded_csv)] |},
       Ok tt).
Proof.
  intros Hmiss. cbv zeta. split_and!.
  - unfold missing_roles.
    destruct (find is_name_col (columns df)), (find is_phone_col (columns df));
      split; intros Hx; try done; solve_elem; rewrite ?elem_of_cons; auto.
  - unfold missing_roles.
    destruct (find is_name_col (columns df)), (find is_phone_col (columns df));
      split; intros Hx; try done; solve_elem; rewrite ?elem_of_cons; auto.
  - intros Hfresh Hfile.
    rewrite (load_fresh _ _ Hfresh Hfile), default_store_missing by done.
    simpl. by rewrite Hfile.
  - by rewrite upload_read, upload_store_missing.
Qed.

Lemma missing_columns_witness :
  DefaultLoad.load (fresh (Some (Ok foo_bar)))
  = ({| recipients_df := Some (empty_frame recipients_schema);
        csv_file := Some (Ok foo_bar);
        page := [(Warning,
                  MissingColumns ["'Name' (or similar)"; "'PhoneNumber' (or similar)"]
                    DefaultLoad.default_csv)] |}, Ok tt)
  ∧ Upload.upload (Some (Ok foo_bar)) (fresh None)
    = ({| recipients_df := None;
          csv_file := None;
          page := [(Error,
                    MissingColumns ["'Name' (or similar)"; "'PhoneNumber' (or similar)"]
                      Upload.uploaded_csv)] |}, Ok tt).
Proof.
  split.
  - apply (missing_columns_soft_failure foo_bar (fresh (Some (Ok foo_bar))));
      [left|..]; reflexivity.
  - apply (missing_columns_soft_failure foo_bar (fresh None)). left; reflexivity.
Defined.

(** * The table a raw frame gives *)

Section Renaming.
Implicit Types (df : DataFrame) (m : gmap string string).

Lemma rename_columns m df out :
  rename m df = Ok out → columns out = renamed m <$> columns df.
Proof.
  unfold rename. case_decide; [|done]. intros [= <-].
  unfold columns. rewrite <- !list_fmap_compose. done.
Qed.

Lemma height_fmap (g : string → string) df :
  height ((λ cs, (g cs.1, cs.2)) <$> df) = height df.
Proof. by destruct df as [|[??]?]. Qed.

Lemma get_column_renamed (g : string → string) (cols : list string) df c :
  (∀ a b, a ∈ cols → b ∈ cols → g a = g b → a = b) →
  columns df ⊆ cols → c ∈ cols →
  get_column (g c) ((λ cs, (g cs.1, cs.2)) <$> df) = get_column c df.
Proof.
  intros Hinj Hsub Hc. induction df as [|[c0 s0] df IH]; simpl; [done|].
  assert (c0 ∈ cols) by (apply Hsub; left).
  assert (columns df ⊆ cols) by (intros x Hx; apply Hsub; by right).
  destruct (decide (c0 = c)) as [->|Hne].
  - by rewrite decide_True.
  - rewrite decide_False by (intros E; apply Hne; by apply Hinj). auto.
Qed.

Lemma rename_ok m df :
  NoDup (columns df) →
  (∀ a b, a ∈ columns df → b ∈ columns df → renamed m a = renamed m b → a = b) →
  ∃ out, rename m df = Ok out
         ∧ height out = height df
         ∧ (∀ c, c ∈ columns df → get_column (renamed m c) out = get_column c df).
Proof.
  intros Hnd Hinj. unfold rename. rewrite decide_True.
  - eexists; split; [done|]. split; [apply (height_fmap (renamed m))|].
    intros c Hc. by apply (get_column_renamed (renamed m) (columns df)).
  - unfold columns. rewrite <- list_fmap_compose.
    change (NoDup ((renamed m ∘ fst) <$> df)).
    rewrite list_fmap_compose. by apply NoDup_fmap_2_strong.
Qed.

End Renaming.

Section Projection.
Context (df : DataFrame) (n p : string).
Context (Hraw : raw_frame df).
Context (Hn : find is_name_col (columns df) = Some n).
Context (Hp : find is_phone_col (columns df) = Some p).

Let np := DefaultLoad.map_name_phone (columns df).
Let fs := DefaultLoad.find_send_col (mapped_cols np) (columns df).

Lemma mapped_cols_found :
  mapped_cols np = <[p := "PhoneNumber"]> (<[n := "Name"]> ∅).
Proof. unfold np. rewrite map_name_phone_spec. simpl. by rewrite Hn, Hp. Qed.

Lemma found_both : found_name np && found_phone np = true.
Proof. unfold np. rewrite map_name_phone_spec. simpl. by rewrite Hn, Hp. Qed.

Lemma name_is_not_phone : n ≠ p.
Proof. by eapply first_name_not_first_phone. Qed.

Lemma renamed_name : renamed (mapped_cols np) n = "Name".
Proof.
  unfold renamed. rewrite mapped_cols_found.
  rewrite lookup_insert_ne by (pose proof name_is_not_phone; congruence).
  by rewrite lookup_insert_eq.
Qed.

Lemma renamed_phone : renamed (mapped_cols np) p = "PhoneNumber".
Proof. unfold renamed. rewrite mapped_cols_found. by rewrite lookup_insert_eq. Qed.

Lemma renamed_other c : c ≠ n → c ≠ p → renamed (mapped_cols np) c = c.
Proof.
  intros ??. unfold renamed. rewrite mapped_cols_found.
  by rewrite !lookup_insert_ne, lookup_empty by done.
Qed.

Lemma name_in_columns : n ∈ columns df.
Proof. apply find_some in Hn as [H _]. by apply list_elem_of_In. Qed.

Lemma phone_in_columns : p ∈ columns df.
Proof. apply find_some in Hp as [H _]. by apply list_elem_of_In. Qed.

Lemma renamed_inj a b :
  no_clash (columns df) n p →
  a ∈ columns df → b ∈ columns df →
  renamed (mapped_cols np) a = renamed (mapped_cols np) b → a = b.
Proof.
  intros [Hcn Hcp] Ha Hb.
  pose proof name_is_not_phone as Hnp.
  assert (∀ c, renamed (mapped_cols np) c = "Name" → c ∈ columns df → c = n) as Hname.
  { intros c E Hc. destruct (decide (c = n)) as [|?]; [done|].
    destruct (decide (c = p)) as [->|?].
    - by rewrite renamed_phone in E.
    - rewrite renamed_other in E by done. subst. symmetry; auto. }
  assert (∀ c, renamed (mapped_cols np) c = "PhoneNumber" → c ∈ columns df → c = p)
    as Hphone.
  { intros c E Hc. destruct (decide (c = p)) as [|?]; [done|].
    destruct (decide (c = n)) as [->|?].
    - by rewrite renamed_name in E.
    - rewrite renamed_other in E by done. subst. symmetry; auto. }
  intros E.
  destruct (decide (a = n)) as [->|?].
  { rewrite renamed_name in E. symmetry. auto. }
  destruct (decide (a = p)) as [->|?].
  { rewrite renamed_phone in E. symmetry. auto. }
  rewrite (renamed_other a) in E by done.
  destruct (decide (b = n)) as [->|?].
  { rewrite renamed_name in E. apply Hname; [|done].
    by rewrite renamed_other. }
  destruct (decide (b = p)) as [->|?].
  { rewrite renamed_phone in E. apply Hphone; [|done].
    by rewrite renamed_other. }
  by rewrite renamed_other in E.
Qed.

(** What the flag scan found, if anything. *)
Lemma flag_source_facts source :
  send_col_source fs = Some source →
  source ∈ columns df ∧ source ≠ n ∧ source ≠ p ∧ source ≠ ""
  ∧ source ≠ "Name" ∧ source ≠ "PhoneNumber"
  ∧ polarity_lookup (lower source) = Some (send_flag_interpretation fs).
Proof.
  unfold fs. rewrite find_send_col_spec.
  destruct (find (λ c, bool_decide (mapped_cols np !! c = None) && _) (columns df))
    as [c|] eqn:E; simpl; [|done].
  intros [= <-].
  apply find_some in E as [Hin [Hm [b Hb]%bool_decide_eq_true]%andb_true_iff].
  apply bool_decide_eq_true in Hm. rewrite mapped_cols_found in Hm.
  apply list_elem_of_In in Hin. rewrite Hb. simpl.
  split_and!; try done.
  - intros ->. pose proof name_is_not_phone.
    by rewrite lookup_insert_ne, lookup_insert_eq in Hm.
  - intros ->. by rewrite lookup_insert_eq in Hm.
  - by intros ->.
  - by intros ->.
  - by intros ->.
Qed.

End Projection.

(** * One normaliser, two callers *)

Section Callers.

Lemma world_eta w :
  {| recipients_df := recipients_df w; csv_file := csv_file w; page := page w |} = w.
Proof. by destruct w. Qed.

Ltac step_store :=
  repeat first
    [ progress (rewrite ?app_nil_r, ?world_eta)
    | progress run_script
    | match goal with
      | |- context [match ?x with _ => _ end] =>
          lazymatch x with
          | context [match _ with _ => _ end] => fail
          | _ => destruct x eqn:?
          end
      end ];
  try done.

Lemma default_store_normalize df w :
  DefaultLoad.store df (DefaultLoad.map_name_phone (columns df))
    (DefaultLoad.find_send_col
       (mapped_cols (DefaultLoad.map_name_phone (columns df))) (columns df)) w
  = default_caller (normalize df) w.
Proof.
  unfold DefaultLoad.store, normalize, flag_column, DefaultLoad.flag_default,
    default_caller, announce.
  step_store.
Qed.

Lemma upload_store_normalize df w :
  Upload.store df (Upload.map_name_phone (columns df))
    (Upload.find_send_col
       (mapped_cols (Upload.map_name_phone (columns df))) (columns df)) w
  = upload_caller (normalize df) w.
Proof.
  unfold Upload.store, normalize, flag_column, Upload.flag_default,
    upload_caller, announce.
  change Upload.map_name_phone with DefaultLoad.map_name_phone.
  change Upload.find_send_col with DefaultLoad.find_send_col.
  change Upload.flag_from_source with DefaultLoad.flag_from_source.
  step_store.
Qed.

(** The two entry points in terms of the normaliser. *)
Lemma load_normalize w df :
  recipients_df w = None → csv_file w = Some (Ok df) →
  DefaultLoad.load w = handled default_handler (default_caller (normalize df) w).
Proof. intros ??. by rewrite (load_fresh w df), default_store_normalize. Qed.

Lemma upload_normalize w df :
  Upload.upload (Some (Ok df)) w
  = handled upload_handler (upload_caller (normalize df) w).
Proof. by rewrite upload_read, upload_store_normalize. Qed.

End Callers.

(** C8.  The two copies of the normalisation logic (default load, lines
    48-158; upload, lines 306-398) compute one function of the raw
    table: the same name/phone bindings, the same flag source and
    polarity, and then the same outcome -- the same canonical table, the
    same unresolved roles, or the same exception.  They differ only in
    what the caller does with it: the wording and level of the notices,
    and the stored table on failure. *)
Theorem two_paths_one_normalizer (df : DataFrame) (w : World) :
  let np := DefaultLoad.map_name_phone (columns df) in
  let fs := DefaultLoad.find_send_col (mapped_cols np) (columns df) in
  Upload.map_name_phone (columns df) = np
  ∧ Upload.find_send_col (mapped_cols (Upload.map_name_phone (columns df))) (columns df) = fs
  ∧ DefaultLoad.store df np fs w = default_caller (normalize df) w
  ∧ Upload.store df (Upload.map_name_phone (columns df))
      (Upload.find_send_col (mapped_cols (Upload.map_name_phone (columns df))) (columns df)) w
    = upload_caller (normalize df) w
  ∧ Upload.upload (Some (Ok df)) w
    = handled upload_handler (upload_caller (normalize df) w)
  ∧ DefaultLoad.load
      {| recipients_df := None; csv_file := Some (Ok df); page := page w |}
    = handled default_handler
        (default_caller (normalize df)
           {| recipients_df := None; csv_file := Some (Ok df); page := page w |}).
Proof.
  cbv zeta. split_and!.
  - reflexivity.
  - reflexivity.
  - apply default_store_normalize.
  - apply upload_store_normalize.
  - apply upload_normalize.
  - by apply load_normalize.
Qed.

Section NormalizeOk.
Context (df : DataFrame) (n p : string).
Context (Hraw : raw_frame df).
Context (Hn : find is_name_col (columns df) = Some n).
Context (Hp : find is_phone_col (columns df) = Some p).
Context (Hclash : no_clash (columns df) n p).

Let np := DefaultLoad.map_name_phone (columns df).
Let fs := DefaultLoad.find_send_col (mapped_cols np) (columns df).

Lemma rbind_ok {A B} (a : A) (k : A → result B) : rbind (Ok a) k = k a.
Proof. reflexivity. Qed.

Lemma select_cast_canonical (out : DataFrame) ns ps flags :
  get_column "Name" out = Some (SUtf8 ns) →
  get_column "PhoneNumber" out = Some (SUtf8 ps) →
  get_column "SendFlag" out = Some (SBool flags) →
  rbind (select ["Name"; "PhoneNumber"; "SendFlag"] out) (cast recipients_schema)
  = Ok [("Name", SUtf8 ns); ("PhoneNumber", SUtf8 ps); ("SendFlag", SBool flags)].
Proof. intros H1 H2 H3. simpl. by rewrite H1, H2, H3. Qed.

Lemma text_column c :
  c ∈ columns df →
  ∃ vs, get_column c df = Some (SUtf8 vs) ∧ length vs = height df.
Proof.
  intros [s Hs]%get_column_is_Some.
  destruct (raw_strings df Hraw c s Hs) as (vs & -> & ?). eauto.
Qed.

Lemma normalize_ok :
  normalize df =
    Stored [("Name", SUtf8 (text_of (get_column n df)));
            ("PhoneNumber", SUtf8 (text_of (get_column p df)));
            ("SendFlag", send_flags df fs)]
           (bool_decide (send_col_source fs = None)).
Proof.
  unfold normalize. fold np. fold fs. unfold np at 1 2.
  rewrite (found_both df n p) by done.
  destruct (rename_ok (mapped_cols np) df) as (sel & -> & Hh & Hget);
    [apply Hraw | intros a b; by apply (renamed_inj df n p) |].
  pose proof (name_in_columns df n Hn) as Hnin.
  pose proof (phone_in_columns df p Hp) as Hpin.
  destruct (text_column n Hnin) as (ns & Hns & _).
  destruct (text_column p Hpin) as (ps & Hps & _).
  assert (get_column "Name" sel = Some (SUtf8 ns)) as Hname.
  { rewrite <- (renamed_name df n p) by done. fold np. by rewrite Hget. }
  assert (get_column "PhoneNumber" sel = Some (SUtf8 ps)) as Hphone.
  { rewrite <- (renamed_phone df n p) by done. fold np. by rewrite Hget. }
  rewrite Hns, Hps. cbn [text_of].
  unfold flag_column, send_flags.
  destruct (send_col_source fs) as [source|] eqn:Hs.
  - destruct (flag_source_facts df n p Hn Hp source Hs)
      as (Hin & Hsn & Hsp & Hse & HsN & HsP & _).
    rewrite decide_False by done.
    destruct (text_column source Hin) as (vs & Hvs & Hlen).
    edestruct (flag_from_source_ok sel source (send_flag_interpretation fs) vs)
      as (out & -> & Hflag & Hrest).
    { rewrite <- (renamed_other df n p Hn Hp source) by done. fold np.
      by rewrite Hget. }
    { by rewrite Hh. }
    rewrite Hvs. unfold mbind, result_bind. cbn [text_of]. rewrite rbind_ok. cbv beta.
    rewrite (select_cast_canonical out ns ps
               ((λ v, Some (flag_value (send_flag_interpretation fs) v)) <$> vs)).
    + by rewrite bool_decide_eq_false_2.
    + by rewrite Hrest.
    + by rewrite Hrest.
    + done.
  - edestruct (with_columns_get (pl_lit true) "SendFlag" sel) as (out & -> & Hflag & Hrest);
      [reflexivity|].
    unfold mbind, result_bind. rewrite rbind_ok. cbv beta.
    rewrite (select_cast_canonical out ns ps (replicate (height sel) (Some true))).
    + by rewrite Hh.
    + by rewrite Hrest.
    + by rewrite Hrest.
    + done.
Qed.

End NormalizeOk.

(** * The stored table keeps the schema *)

Section SchemaKept.

Lemma schema_columns (t : DataFrame) :
  schema t = recipients_schema → columns t = ["Name"; "PhoneNumber"; "SendFlag"].
Proof.
  intros H. unfold columns.
  change ["Name"; "PhoneNumber"; "SendFlag"] with (recipients_schema.*1).
  rewrite <- H. unfold schema. by rewrite <- list_fmap_compose.
Qed.

Lemma three_columns (t : DataFrame) :
  columns t = ["Name"; "PhoneNumber"; "SendFlag"] →
  ∃ s1 s2 s3, t = [("Name", s1); ("PhoneNumber", s2); ("SendFlag", s3)].
Proof.
  destruct t as [|[c1 s1] [|[c2 s2] [|[c3 s3] [|??]]]]; try done.
  intros [= -> -> ->]. eauto.
Qed.

Lemma cast_three s1 s2 s3 :
  ∃ out, cast recipients_schema [("Name", s1); ("PhoneNumber", s2); ("SendFlag", s3)]
         = Ok out
         ∧ schema out = recipients_schema.
Proof. destruct s1, s2, s3; eexists; split; reflexivity. Qed.

Lemma cast_keeps_schema (t : DataFrame) :
  columns t = ["Name"; "PhoneNumber"; "SendFlag"] →
  ∃ out, cast recipients_schema t = Ok out ∧ schema out = recipients_schema.
Proof. intros (s1 & s2 & s3 & ->)%three_columns. apply cast_three. Qed.

Lemma select_cast_schema (df t : DataFrame) :
  rbind (select ["Name"; "PhoneNumber"; "SendFlag"] df) (cast recipients_schema) = Ok t →
  schema t = recipients_schema.
Proof.
  simpl.
  destruct (get_column "Name" df) as [s1|]; [|done].
  destruct (get_column "PhoneNumber" df) as [s2|]; [|done].
  destruct (get_column "SendFlag" df) as [s3|]; [|done].
  destruct s1, s2, s3; intros [= <-]; reflexivity.
Qed.

Lemma select_cast_flags (df t : DataFrame) flags :
  get_column "SendFlag" df = Some (SBool flags) →
  rbind (select ["Name"; "PhoneNumber"; "SendFlag"] df) (cast recipients_schema) = Ok t →
  get_column "SendFlag" t = Some (SBool flags).
Proof.
  simpl. intros ->.
  destruct (get_column "Name" df) as [s1|]; [|done].
  destruct (get_column "PhoneNumber" df) as [s2|]; [|done].
  destruct s1, s2; intros [= <-]; reflexivity.
Qed.

Lemma choose_literals (cs : list (option bool)) h :
  ∃ flags, choose cs (replicate h (Some true)) (replicate h (Some false))
           = Some <$> flags.
Proof.
  unfold choose. revert h. induction cs as [|c cs IH]; intros h.
  - by exists [].
  - destruct h as [|h]; [by exists []|]. simpl.
    destruct (IH h) as [flags ->].
    by exists ((if c is Some true then true else false) :: flags);
      destruct c as [[]|].
Qed.

Lemma eval_flag_total df source accepted s :
  eval df (flag_expr source accepted) = Ok s → ∃ flags, s = SBool (Some <$> flags).
Proof.
  unfold flag_expr. simpl.
  destruct (get_column source df) as [[vs|vs]|]; simpl; try done.
  intros [= <-]. edestruct choose_literals as [flags ->]. eauto.
Qed.

Lemma with_columns_flag_total (sel : DataFrame) source accepted mid :
  with_columns (flag_expr source accepted) "SendFlag" sel = Ok mid →
  ∃ flags, get_column "SendFlag" mid = Some (SBool (Some <$> flags)).
Proof.
  intros Hw. destruct (eval sel (flag_expr source accepted)) as [s|] eqn:He.
  - destruct (eval_flag_total _ _ _ _ He) as [flags ->].
    destruct (with_columns_get _ "SendFlag" _ _ He) as (o & Ho & Hf & _).
    rewrite Ho in Hw. injection Hw as <-. eauto.
  - unfold with_columns in Hw. by rewrite He in Hw.
Qed.

Lemma flag_column_total fs (sel out : DataFrame) d :
  flag_column fs sel = (d, Ok out) → flags_total out.
Proof.
  unfold flag_column, flags_total.
  assert (∀ out, with_columns (pl_lit true) "SendFlag" sel = Ok out →
            ∃ flags, get_column "SendFlag" out = Some (SBool (Some <$> flags)))
    as Hlit.
  { intros out'. edestruct (with_columns_get (pl_lit true) "SendFlag" sel)
      as (o & -> & Hf & _); [reflexivity|].
    intros [= <-]. exists (replicate (height sel) true).
    by rewrite fmap_replicate. }
  destruct (send_col_source fs) as [source|];
    [|intros Hw%(f_equal snd); exact (Hlit _ Hw)].
  case_decide; [intros Hw%(f_equal snd); exact (Hlit _ Hw)|].
  intros Hw%(f_equal snd). cbn [snd] in Hw. revert Hw.
  unfold DefaultLoad.flag_from_source.
  unfold mbind, result_bind, mret, result_ret.
  set (acc := if send_flag_interpretation fs then _ else _).
  assert (∀ mid, acc = Ok mid →
            ∃ flags, get_column "SendFlag" mid = Some (SBool (Some <$> flags)))
    as Hmid.
  { intros mid. unfold acc.
    destruct (send_flag_interpretation fs); apply with_columns_flag_total. }
  destruct acc as [mid|]; [|done]. simpl. intros [= <-].
  destruct (Hmid mid eq_refl) as [flags Hf].
  exists flags. case_bool_decide; simpl; [|done].
  case_bool_decide; simpl; [|done].
  by rewrite get_column_drop_ne.
Qed.

(** Whatever the raw frame, a table that normalisation stores has the
    canonical schema, and its flag column has no null. *)
Lemma normalize_stored df t d :
  normalize df = Stored t d → schema t = recipients_schema ∧ flags_total t.
Proof.
  unfold normalize.
  destruct (found_name _ && found_phone _); [|done].
  destruct (rename _ df) as [sel|]; [|done].
  destruct (flag_column _ sel) as [d' [out|]] eqn:Hf; [|done].
  unfold mbind, result_bind. rewrite rbind_ok.
  destruct (rbind (select _ out) _) as [t'|] eqn:Hs; [|done].
  intros [= <- <-]. split; [by eapply select_cast_schema|].
  destruct (flag_column_total _ _ _ _ Hf) as [flags Hflags].
  exists flags. by eapply select_cast_flags.
Qed.

End SchemaKept.

Section Invariant.

Lemma empty_schema_ok w notes :
  schema_ok {| recipients_df := Some (empty_frame recipients_schema);
               csv_file := csv_file w; page := notes |}.
Proof. by eexists. Qed.

Lemma load_schema_ok w : recipients_df w = None → schema_ok (DefaultLoad.load w).1.
Proof.
  intros Hfresh. destruct (csv_file w) as [[df|e]|] eqn:Hfile.
  - rewrite (load_normalize w df) by done.
    destruct (normalize df) as [t d|roles|e d] eqn:Hn; simpl.
    + exists t. split; [done|]. by apply (normalize_stored df t d).
    + apply empty_schema_ok.
    + by eexists.
  - rewrite (load_unreadable w e) by done. by eexists.
  - rewrite load_absent by done. by eexists.
Qed.

Lemma load_returns w : (DefaultLoad.load w).2 = Ok tt.
Proof.
  destruct (recipients_df w) as [t|] eqn:Hfresh; [by rewrite (load_present w t)|].
  destruct (csv_file w) as [[df|e]|] eqn:Hfile.
  - rewrite (load_normalize w df) by done. by destruct (normalize df).
  - by rewrite (load_unreadable w e).
  - by rewrite load_absent.
Qed.

Lemma upload_schema_ok w file : schema_ok w → schema_ok (Upload.upload file w).1.
Proof.
  intros Hw. destruct file as [[df|e]|]; [| |done].
  - rewrite upload_normalize.
    destruct (normalize df) as [t d|roles|e d] eqn:Hn; simpl; try done.
    exists t. split; [done|]. by apply (normalize_stored df t d).
  - done.
Qed.

Lemma upload_returns w file : (Upload.upload file w).2 = Ok tt.
Proof.
  destruct file as [[df|e]|]; [| |done].
  - rewrite upload_normalize. by destruct (normalize df).
  - done.
Qed.

Lemma edit_schema_ok w editor :
  schema_ok w → editor_keeps_columns editor →
  schema_ok (edit editor w).1 ∧ (edit editor w).2 = Ok tt.
Proof.
  intros (t & Ht & Hs) Hed. unfold edit. run_script. rewrite Ht. run_script.
  pose proof (Hed t) as Hcols. pose proof (schema_columns t Hs) as Ht3.
  destruct (editor t) as [|df'|[df'|e]|]; run_script.
  - split; [by exists t|done].
  - destruct (cast_keeps_schema df') as (out & -> & Hout); [congruence|].
    run_script. split; [by exists out|done].
  - destruct (cast_keeps_schema df') as (out & -> & Hout); [congruence|].
    run_script. split; [by exists out|done].
  - split; [|by destruct e]. exists t. by destruct e.
  - split; [by exists t|done].
Qed.

Lemma save_keeps w clicked io :
  recipients_df (save clicked io w).1 = recipients_df w
  ∧ (save clicked io w).2 = Ok tt.
Proof.
  unfold save. destruct clicked; [|done]. run_script.
  destruct (recipients_df w) as [t|] eqn:Ht; simpl; [|done].
  case_bool_decide; simpl; [done|].
  unfold write_csv. destruct io; simpl; by rewrite Ht.
Qed.

Lemma rerun_schema_ok i w :
  recipients_df w = None ∨ schema_ok w →
  editor_keeps_columns (data_editor i) →
  schema_ok (rerun i w).1 ∧ (rerun i w).2 = Ok tt.
Proof.
  intros Hw Hed. unfold rerun, script.
  set (w0 := {| recipients_df := recipients_df w; csv_file := csv_file w; page := [] |}).
  assert (schema_ok (DefaultLoad.load w0).1) as H1.
  { destruct Hw as [Hfresh|(t & Ht & Hs)].
    - by apply load_schema_ok.
    - rewrite (load_present w0 t) by done. by exists t. }
  pose proof (load_returns w0) as R1.
  unfold mbind, M_bind.
  destruct (DefaultLoad.load w0) as [w1 r1]. simpl in H1, R1. subst r1.
  pose proof (upload_schema_ok w1 (uploaded_file i) H1) as H2.
  pose proof (upload_returns w1 (uploaded_file i)) as R2.
  destruct (Upload.upload (uploaded_file i) w1) as [w2 r2]. simpl in H2, R2. subst r2.
  destruct (edit_schema_ok w2 (data_editor i) H2 Hed) as [H3 R3].
  destruct (edit (data_editor i) w2) as [w3 r3]. simpl in H3, R3. subst r3.
  destruct (save_keeps w3 (save_clicked i) (write_failure i)) as [H4 R4].
  destruct (save (save_clicked i) (write_failure i) w3) as [w4 r4].
  simpl in *. subst r4. split; [|done].
  destruct H3 as (t & Ht & Hs). exists t. by rewrite H4.
Qed.

Lemma runs_schema_ok inputs : ∀ w,
  recipients_df w = None ∨ schema_ok w →
  Forall (λ i, editor_keeps_columns (data_editor i)) inputs →
  inputs ≠ [] →
  schema_ok (runs inputs w).
Proof.
  induction inputs as [|i rest IH]; intros w Hw Hed Hne; [done|].
  apply Forall_cons in Hed as [Hi Hrest]. simpl.
  destruct (rerun_schema_ok i w Hw Hi) as [Hok _].
  destruct rest as [|j rest]; [done|].
  apply IH; [by right|done|done].
Qed.

End Invariant.

(** C9.  Schema invariant.  From a fresh session, after any number of
    runs of the script the stored table has exactly the columns Name,
    PhoneNumber, SendFlag, of types string, string and boolean.  It
    holds path by path: the default load in all its outcomes (table
    built, file missing, column missing, read or processing error), the
    upload whether it stores or not, and the edits, which are cast to
    the schema -- given that the editor hands back the columns it was
    shown.  A table that normalisation stores has no null flag. *)
Theorem recipients_schema_invariant (inputs : list Inputs) (w : World) :
  recipients_df w = None →
  Forall (λ i, editor_keeps_columns (data_editor i)) inputs →
  inputs ≠ [] →
  schema_ok (runs inputs w)
  ∧ (∀ w', recipients_df w' = None → schema_ok (DefaultLoad.load w').1)
  ∧ (∀ w' file, schema_ok w' → schema_ok (Upload.upload file w').1)
  ∧ (∀ w' editor, schema_ok w' → editor_keeps_columns editor →
       schema_ok (edit editor w').1 ∧ (edit editor w').2 = Ok tt)
  ∧ (∀ w' clicked io, recipients_df (save clicked io w').1 = recipients_df w')
  ∧ (∀ df t defaulted w',
       normalize df = Stored t defaulted →
       schema t = recipients_schema ∧ flags_total t
       ∧ recipients_df (Upload.upload (Some (Ok df)) w').1 = Some t
       ∧ recipients_df
           (DefaultLoad.load
              {| recipients_df := None; csv_file := Some (Ok df); page := page w' |}).1
         = Some t).
Proof.
  intros Hfresh Hed Hne. split_and!.
  - apply runs_schema_ok; auto.
  - apply load_schema_ok.
  - apply upload_schema_ok.
  - apply edit_schema_ok.
  - intros. apply save_keeps.
  - intros df t d w' Hn.
    destruct (normalize_stored df t d Hn) as [Hs Hf].
    split_and!; try done.
    + by rewrite upload_normalize, Hn.
    + rewrite (load_normalize _ df) by done. by rewrite Hn.
Qed.

Lemma recipients_schema_invariant_witness :
  schema_ok (runs [show_only; upload_and_save tenants] (fresh None)).
Proof.
  refine (proj1 (recipients_schema_invariant
                   [show_only; upload_and_save tenants] (fresh None) _ _ _)).
  - reflexivity.
  - apply Forall_cons. split; [intros df; reflexivity|].
    apply Forall_cons. split; [intros df; exact I|]. by apply Forall_nil.
  - discriminate.
Defined.

(** C10.  Normalisation is a function of the raw table alone: two runs
    on the same raw table, in whatever state the page and the session
    are, reach the same outcome -- the default load stores the same
    table and adds the same notices, and the upload either stores that
    same table in both runs or stores nothing in either. *)
Theorem normalize_deterministic (df : DataFrame) (w1 w2 : World) :
  recipients_df w1 = None → recipients_df w2 = None →
  csv_file w1 = Some (Ok df) → csv_file w2 = Some (Ok df) →
  recipients_df (DefaultLoad.load w1).1 = recipients_df (DefaultLoad.load w2).1
  ∧ (∃ notes, page (DefaultLoad.load w1).1 = page w1 ++ notes
              ∧ page (DefaultLoad.load w2).1 = page w2 ++ notes)
  ∧ ((∃ t, recipients_df (Upload.upload (Some (Ok df)) w1).1 = Some t
           ∧ recipients_df (Upload.upload (Some (Ok df)) w2).1 = Some t
           ∧ recipients_df (DefaultLoad.load w1).1 = Some t)
     ∨ (recipients_df (Upload.upload (Some (Ok df)) w1).1 = recipients_df w1
        ∧ recipients_df (Upload.upload (Some (Ok df)) w2).1 = recipients_df w2)).
Proof.
  intros F1 F2 C1 C2.
  rewrite (load_normalize w1 df), (load_normalize w2 df), !upload_normalize by done.
  destruct (normalize df) as [t d|roles|e d]; simpl; split_and!; eauto.
  - by rewrite <- !(assoc_L (++)); eauto.
Qed.

Lemma normalize_deterministic_witness :
  recipients_df (DefaultLoad.load (fresh (Some (Ok tenants)))).1
  = recipients_df (DefaultLoad.load (busy (Some (Ok tenants)))).1
  ∧ (∃ notes,
       page (DefaultLoad.load (fresh (Some (Ok tenants)))).1
       = page (fresh (Some (Ok tenants))) ++ notes
       ∧ page (DefaultLoad.load (busy (Some (Ok tenants)))).1
         = page (busy (Some (Ok tenants))) ++ notes)
  ∧ ((∃ t, recipients_df (Upload.upload (Some (Ok tenants)) (fresh (Some (Ok tenants)))).1
           = Some t
           ∧ recipients_df (Upload.upload (Some (Ok tenants)) (busy (Some (Ok tenants)))).1
             = Some t
           ∧ recipients_df (DefaultLoad.load (fresh (Some (Ok tenants)))).1 = Some t)
     ∨ (recipients_df (Upload.upload (Some (Ok tenants)) (fresh (Some (Ok tenants)))).1
        = recipients_df (fresh (Some (Ok tenants)))
        ∧ recipients_df (Upload.upload (Some (Ok tenants)) (busy (Some (Ok tenants)))).1
          = recipients_df (busy (Some (Ok tenants))))).
Proof.
  apply (normalize_deterministic tenants
           (fresh (Some (Ok tenants))) (busy (Some (Ok tenants)))); reflexivity.
Defined.

(** * Saving and loading again *)

Section RoundTrip.
Context (names phones : list (option string)) (flags : list bool).
Context (Hnames : length names = length flags).
Context (Hphones : length phones = length flags).

Let t : DataFrame :=
  [("Name", SUtf8 names); ("PhoneNumber", SUtf8 phones);
   ("SendFlag", SBool (Some <$> flags))].

Lemma written_canonical :
  written t =
    [("Name", SUtf8 names); ("PhoneNumber", SUtf8 phones);
     ("SendFlag", SUtf8 ((λ b, Some (bool_text b)) <$> flags))].
Proof.
  unfold written, t. simpl. do 4 f_equal. by rewrite <- list_fmap_compose.
Qed.

Lemma written_raw : raw_frame (written t).
Proof.
  rewrite written_canonical. split.
  - apply (bool_decide_unpack _). by vm_compute.
  - intros c s. simpl.
    repeat case_decide; intros [= <-]; eexists; (split; [done|]);
      rewrite ?length_fmap; congruence.
Qed.

Lemma flags_read_back :
  (λ v, Some (flag_value true v)) <$> ((λ b, Some (bool_text b)) <$> flags)
  = Some <$> flags.
Proof.
  rewrite <- list_fmap_compose. apply list_fmap_ext.
  by intros _ [] _.
Qed.

Lemma normalize_written : normalize (written t) = Stored t false.
Proof.
  rewrite (normalize_ok (written t) "Name" "PhoneNumber").
  - rewrite written_canonical.
    set (raw := [("Name", SUtf8 names); ("PhoneNumber", SUtf8 phones);
                 ("SendFlag", SUtf8 ((λ b, Some (bool_text b)) <$> flags))]).
    change (columns raw) with ["Name"; "PhoneNumber"; "SendFlag"].
    assert (DefaultLoad.find_send_col
              (mapped_cols (DefaultLoad.map_name_phone ["Name"; "PhoneNumber"; "SendFlag"]))
              ["Name"; "PhoneNumber"; "SendFlag"]
            = {| send_col_source := Some "SendFlag"; send_flag_interpretation := true |})
      as -> by (vm_compute; reflexivity).
    unfold send_flags. cbn [send_col_source send_flag_interpretation].
    assert (get_column "Name" raw = Some (SUtf8 names)) as -> by reflexivity.
    assert (get_column "PhoneNumber" raw = Some (SUtf8 phones)) as -> by reflexivity.
    assert (get_column "SendFlag" raw
            = Some (SUtf8 ((λ b, Some (bool_text b)) <$> flags))) as -> by reflexivity.
    cbn [text_of]. unfold flag_series. rewrite flags_read_back.
    by rewrite bool_decide_eq_false_2.
  - apply written_raw.
  - by rewrite written_canonical.
  - by rewrite written_canonical.
  - by rewrite written_canonical.
Qed.

End RoundTrip.

(** C7.  Round trip.  A canonical table written out as CSV has the
    header Name, PhoneNumber, SendFlag, and normalising what is read
    back gives the table again, through the upload and through the
    default load alike.  The save button writes exactly that file for
    every table with at least one row (it declines to write an empty
    one). *)
Theorem save_then_load_round_trip (t : DataFrame) (w : World) :
  canonical t →
  columns (written t) = ["Name"; "PhoneNumber"; "SendFlag"]
  ∧ normalize (written t) = Stored t false
  ∧ Upload.upload (Some (Ok (written t))) w
    = ({| recipients_df := Some t;
          csv_file := csv_file w;
          page := page w ++ [(Success, UploadProcessed)] |}, Ok tt)
  ∧ DefaultLoad.load
      {| recipients_df := None; csv_file := Some (Ok (written t)); page := page w |}
    = ({| recipients_df := Some t;
          csv_file := Some (Ok (written t));
          page := page w |}, Ok tt)
  ∧ (recipients_df w = Some t → height t ≠ 0 →
       csv_file (save true None w).1 = Some (Ok (written t))).
Proof.
  intros (names & phones & flags & -> & Hn & Hp).
  pose proof (normalize_written names phones flags Hn Hp) as Hnorm.
  split_and!.
  - rewrite written_canonical. reflexivity.
  - done.
  - rewrite upload_normalize, Hnorm. simpl. by rewrite app_nil_r.
  - rewrite (load_normalize _ (written [("Name", SUtf8 names); ("PhoneNumber", SUtf8 phones);
                                         ("SendFlag", SBool (Some <$> flags))])) by done.
    rewrite Hnorm. simpl. by rewrite app_nil_r.
  - intros Hw Hh. unfold save. run_script. rewrite Hw. run_script.
    rewrite bool_decide_eq_false_2 by done. done.
Qed.

Lemma save_then_load_witness :
  columns (written two_recipients) = ["Name"; "PhoneNumber"; "SendFlag"]
  ∧ normalize (written two_recipients) = Stored two_recipients false
  ∧ Upload.upload (Some (Ok (written two_recipients))) (holding two_recipients)
    = ({| recipients_df := Some two_recipients;
          csv_file := csv_file (holding two_recipients);
          page := page (holding two_recipients) ++ [(Success, UploadProcessed)] |}, Ok tt)
  ∧ DefaultLoad.load
      {| recipients_df := None; csv_file := Some (Ok (written two_recipients));
         page := page (holding two_recipients) |}
    = ({| recipients_df := Some two_recipients;
          csv_file := Some (Ok (written two_recipients));
          page := page (holding two_recipients) |}, Ok tt)
  ∧ (recipients_df (holding two_recipients) = Some two_recipients →
     height two_recipients ≠ 0 →
     csv_file (save true None (holding two_recipients)).1
     = Some (Ok (written two_recipients))).
Proof.
  apply (save_then_load_round_trip two_recipients (holding two_recipients)).
  by exists [Some "Alice"; Some "Bob"], [Some "+15551230000"; Some ""], [true; false].
Defined.

Example save_declines_empty_table :
  save true None
    {| recipients_df := Some (empty_frame recipients_schema); csv_file := None; page := [] |}
  = ({| recipients_df := Some (empty_frame recipients_schema);
        csv_file := None;
        page := [(Warning, NothingToSave)] |}, Ok tt).
Proof. reflexivity. Qed.

(** * Rows *)

Example alice_bob_normalized :
  normalize alice_bob = Stored two_recipients false
  ∧ records two_recipients
    = [ {| name := Some "Alice"; phoneNumber := Some "+15551230000"; sendFlag := Some true |};
        {| name := Some "Bob"; phoneNumber := Some ""; sendFlag := Some false |} ]
  ∧ DefaultLoad.load (fresh (Some (Ok alice_bob)))
    = ({| recipients_df := Some two_recipients;
          csv_file := Some (Ok alice_bob); page := [] |}, Ok tt).
Proof. split_and!; reflexivity. Qed.

(** * Renaming onto a column that is already there *)

Lemma concrete_raw (df : DataFrame) :
  bool_decide (NoDup (columns df)) = true →
  forallb (λ cs, match cs.2 with
                 | SUtf8 vs => bool_decide (length vs = height df)
                 | SBool _ => false
                 end) df = true →
  raw_frame df.
Proof.
  intros Hnd%bool_decide_eq_true Hall. split; [done|].
  intros c s Hc. rewrite forallb_forall in Hall.
  assert ((c, s) ∈ df) as Hin.
  { clear Hall Hnd. induction df as [|[c0 s0] df' IH]; simpl in *; [done|].
    case_decide; simplify_eq; [left|right; auto]. }
  apply list_elem_of_In, Hall in Hin. simpl in Hin.
  destruct s as [vs|]; [|done]. apply bool_decide_eq_true in Hin. eauto.
Qed.

(** C6 at its failing input.  The frame is one [read_csv] can return,
    with a resolvable name column (Tenant) and phone column (Phone); the
    rename raises, so no row is carried over: the default load shows the
    error and starts from the empty table, the upload shows the error
    and stores nothing. *)
Theorem rename_clash_loses_rows :
  raw_frame tenant_and_name
  ∧ find is_name_col (columns tenant_and_name) = Some "Tenant"
  ∧ find is_phone_col (columns tenant_and_name) = Some "Phone"
  ∧ normalize tenant_and_name = Raised DuplicateError false
  ∧ DefaultLoad.load (fresh (Some (Ok tenant_and_name)))
    = ({| recipients_df := Some (empty_frame recipients_schema);
          csv_file := Some (Ok tenant_and_name);
          page := [(Error, ProcessingError DefaultLoad.default_csv DuplicateError)] |},
       Ok tt)
  ∧ Upload.upload (Some (Ok tenant_and_name)) (fresh None)
    = ({| recipients_df := None;
          csv_file := None;
          page := [(Error, ProcessingError "uploaded file" DuplicateError)] |}, Ok tt).
Proof. split_and!; first [by apply concrete_raw | reflexivity]. Qed.

(** C5 at its failing input.  Name and phone are resolvable (Name,
    Mobile) and there is no flag column, but the rename of Mobile onto
    the existing PhoneNumber raises before the default is announced: no
    warning is shown and no row gets a flag. *)
Theorem rename_clash_skips_default :
  raw_frame mobile_and_phonenumber
  ∧ find is_name_col (columns mobile_and_phonenumber) = Some "Name"
  ∧ find is_phone_col (columns mobile_and_phonenumber) = Some "Mobile"
  ∧ send_col_source
      (DefaultLoad.find_send_col
         (mapped_cols (DefaultLoad.map_name_phone (columns mobile_and_phonenumber)))
         (columns mobile_and_phonenumber)) = None
  ∧ normalize mobile_and_phonenumber = Raised DuplicateError false
  ∧ DefaultLoad.load (fresh (Some (Ok mobile_and_phonenumber)))
    = ({| recipients_df := Some (empty_frame recipients_schema);
          csv_file := Some (Ok mobile_and_phonenumber);
          page := [(Error, ProcessingError DefaultLoad.default_csv DuplicateError)] |},
       Ok tt)
  ∧ Upload.upload (Some (Ok mobile_and_phonenumber)) (fresh None)
    = ({| recipients_df := None;
          csv_file := None;
          page := [(Error, ProcessingError "uploaded file" DuplicateError)] |}, Ok tt).
Proof. split_and!; first [by apply concrete_raw | reflexivity]. Qed.

(** * What holds when the rename meets no existing column *)

Section NoClash.
Context (df : DataFrame) (n p : string).
Context (Hraw : raw_frame df).
Context (Hn : find is_name_col (columns df) = Some n).
Context (Hp : find is_phone_col (columns df) = Some p).
Context (Hclash : no_clash (columns df) n p).

Let fs := DefaultLoad.find_send_col
            (mapped_cols (DefaultLoad.map_name_phone (columns df))) (columns df).

Lemma announce_default source :
  announce (bool_decide (send_col_source fs = None)) source = default_notice source fs.
Proof. unfold announce, default_notice. by destruct (send_col_source fs). Qed.

Lemma load_ok notes :
  DefaultLoad.load {| recipients_df := None; csv_file := Some (Ok df); page := notes |}
  = ({| recipients_df :=
          Some [("Name", SUtf8 (text_of (get_column n df)));
                ("PhoneNumber", SUtf8 (text_of (get_column p df)));
                ("SendFlag", send_flags df fs)];
        csv_file := Some (Ok df);
        page := notes ++ default_notice DefaultLoad.default_csv fs |}, Ok tt).
Proof.
  rewrite (load_normalize _ df) by done.
  rewrite (normalize_ok df n p) by done. simpl. by rewrite announce_default.
Qed.

Lemma upload_ok w :
  Upload.upload (Some (Ok df)) w
  = ({| recipients_df :=
          Some [("Name", SUtf8 (text_of (get_column n df)));
                ("PhoneNumber", SUtf8 (text_of (get_column p df)));
                ("SendFlag", send_flags df fs)];
        csv_file := csv_file w;
        page := (page w ++ default_notice Upload.uploaded_csv fs)
                ++ [(Success, UploadProcessed)] |}, Ok tt).
Proof.
  rewrite upload_normalize, (normalize_ok df n p) by done. simpl.
  by rewrite announce_default.
Qed.

End NoClash.

(** Projection.  For a raw frame whose name and phone columns are
    resolvable and whose rename meets no existing Name or PhoneNumber
    column, both paths store exactly three columns: Name and PhoneNumber
    are the bound columns as they stand, value for value and in row
    order, and SendFlag is the interpreted flag; the flag source itself
    is not kept. *)
Theorem projection_without_clash (df : DataFrame) (n p : string) (w : World) :
  raw_frame df →
  find is_name_col (columns df) = Some n →
  find is_phone_col (columns df) = Some p →
  no_clash (columns df) n p →
  let fs := DefaultLoad.find_send_col
              (mapped_cols (DefaultLoad.map_name_phone (columns df))) (columns df) in
  let t := [("Name", SUtf8 (text_of (get_column n df)));
            ("PhoneNumber", SUtf8 (text_of (get_column p df)));
            ("SendFlag", send_flags df fs)] in
  get_column n df = Some (SUtf8 (text_of (get_column n df)))
  ∧ get_column p df = Some (SUtf8 (text_of (get_column p df)))
  ∧ DefaultLoad.load {| recipients_df := None; csv_file := Some (Ok df); page := page w |}
    = ({| recipients_df := Some t;
          csv_file := Some (Ok df);
          page := page w ++ default_notice DefaultLoad.default_csv fs |}, Ok tt)
  ∧ Upload.upload (Some (Ok df)) w
    = ({| recipients_df := Some t;
          csv_file := csv_file w;
          page := (page w ++ default_notice Upload.uploaded_csv fs)
                  ++ [(Success, UploadProcessed)] |}, Ok tt).
Proof.
  intros Hraw Hn Hp Hclash. cbv zeta. split_and!.
  - destruct (text_column df Hraw n (name_in_columns df n Hn)) as (vs & -> & _). done.
  - destruct (text_column df Hraw p (phone_in_columns df p Hp)) as (vs & -> & _). done.
  - by apply load_ok.
  - by apply upload_ok.
Qed.

Lemma projection_witness :
  get_column "Name" alice_bob = Some (SUtf8 (text_of (get_column "Name" alice_bob)))
  ∧ get_column "Phone" alice_bob = Some (SUtf8 (text_of (get_column "Phone" alice_bob)))
  ∧ DefaultLoad.load
      {| recipients_df := None; csv_file := Some (Ok alice_bob); page := page (fresh None) |}
    = ({| recipients_df :=
            Some [("Name", SUtf8 (text_of (get_column "Name" alice_bob)));
                  ("PhoneNumber", SUtf8 (text_of (get_column "Phone" alice_bob)));
                  ("SendFlag",
                   send_flags alice_bob
                     (DefaultLoad.find_send_col
                        (mapped_cols (DefaultLoad.map_name_phone (columns alice_bob)))
                        (columns alice_bob)))];
          csv_file := Some (Ok alice_bob);
          page := page (fresh None)
                  ++ default_notice DefaultLoad.default_csv
                       (DefaultLoad.find_send_col
                          (mapped_cols (DefaultLoad.map_name_phone (columns alice_bob)))
                          (columns alice_bob)) |}, Ok tt)
  ∧ Upload.upload (Some (Ok alice_bob)) (fresh None)
    = ({| recipients_df :=
            Some [("Name", SUtf8 (text_of (get_column "Name" alice_bob)));
                  ("PhoneNumber", SUtf8 (text_of (get_column "Phone" alice_bob)));
                  ("SendFlag",
                   send_flags alice_bob
                     (DefaultLoad.find_send_col
                        (mapped_cols (DefaultLoad.map_name_phone (columns alice_bob)))
                        (columns alice_bob)))];
          csv_file := csv_file (fresh None);
          page := (page (fresh None)
                   ++ default_notice Upload.uploaded_csv
                        (DefaultLoad.find_send_col
                           (mapped_cols (DefaultLoad.map_name_phone (columns alice_bob)))
                           (columns alice_bob)))
                  ++ [(Success, UploadProcessed)] |}, Ok tt).
Proof.
  apply (projection_without_clash alice_bob "Name" "Phone" (fresh None)).
  - by apply concrete_raw.
  - reflexivity.
  - reflexivity.
  - split; [done|]. intros H. exfalso. revert H. unfold alice_bob. simpl.
    intros H. solve_elem.
Defined.

(** Default flag.  With name and phone resolvable, no flag source, and
    no clash in the rename, every row's SendFlag is true and the page
    carries the warning that the default was applied. *)
Theorem flag_defaults_to_true (df : DataFrame) (n p : string) (w : World) :
  raw_frame df →
  find is_name_col (columns df) = Some n →
  find is_phone_col (columns df) = Some p →
  no_clash (columns df) n p →
  send_col_source
    (DefaultLoad.find_send_col
       (mapped_cols (DefaultLoad.map_name_phone (columns df))) (columns df)) = None →
  let t := [("Name", SUtf8 (text_of (get_column n df)));
            ("PhoneNumber", SUtf8 (text_of (get_column p df)));
            ("SendFlag", SBool (replicate (height df) (Some true)))] in
  DefaultLoad.load {| recipients_df := None; csv_file := Some (Ok df); page := page w |}
  = ({| recipients_df := Some t;
        csv_file := Some (Ok df);
        page := page w ++ [(Warning, NoFlagColumn DefaultLoad.default_csv)] |}, Ok tt)
  ∧ Upload.upload (Some (Ok df)) w
    = ({| recipients_df := Some t;
          csv_file := csv_file w;
          page := (page w ++ [(Warning, NoFlagColumn Upload.uploaded_csv)])
                  ++ [(Success, UploadProcessed)] |}, Ok tt).
Proof.
  intros Hraw Hn Hp Hclash Hnone. cbv zeta.
  rewrite (load_ok df n p), (upload_ok df n p) by done.
  unfold send_flags, default_notice. by rewrite Hnone.
Qed.

Lemma flag_defaults_witness :
  DefaultLoad.load
    {| recipients_df := None; csv_file := Some (Ok name_phone_only);
       page := page (fresh None) |}
  = ({| recipients_df :=
          Some [("Name", SUtf8 (text_of (get_column "Name" name_phone_only)));
                ("PhoneNumber", SUtf8 (text_of (get_column "Phone" name_phone_only)));
                ("SendFlag", SBool (replicate (height name_phone_only) (Some true)))];
        csv_file := Some (Ok name_phone_only);
        page := page (fresh None) ++ [(Warning, NoFlagColumn DefaultLoad.default_csv)] |},
     Ok tt)
  ∧ Upload.upload (Some (Ok name_phone_only)) (fresh None)
    = ({| recipients_df :=
            Some [("Name", SUtf8 (text_of (get_column "Name" name_phone_only)));
                  ("PhoneNumber", SUtf8 (text_of (get_column "Phone" name_phone_only)));
                  ("SendFlag", SBool (replicate (height name_phone_only) (Some true)))];
          csv_file := csv_file (fresh None);
          page := (page (fresh None) ++ [(Warning, NoFlagColumn Upload.uploaded_csv)])
                  ++ [(Success, UploadProcessed)] |}, Ok tt).
Proof.
  apply (flag_defaults_to_true name_phone_only "Name" "Phone" (fresh None)).
  - by apply concrete_raw.
  - reflexivity.
  - reflexivity.
  - split; [done|]. intros H. exfalso. revert H. unfold name_phone_only. simpl.
    intros H. solve_elem.
  - reflexivity.
Defined.


(** * The command-line sender *)

Section Strings.

Lemma split_nonempty sep s : split sep s ≠ [].
Proof.
  destruct s as [|c s]; simpl; [done|].
  case_decide; [done|]. by destruct (split sep s).
Qed.

Lemma split_no_sep sep s : count_char sep s = 0 → split sep s = [s].
Proof.
  induction s as [|c s IH]; simpl; [done|].
  case_decide; [done|]. intros Hc. by rewrite IH.
Qed.

Lemma split_app_sep sep a rest :
  count_char sep a = 0 →
  split sep (a +:+ String sep rest) = a :: split sep rest.
Proof.
  induction a as [|c a IH]; simpl.
  - intros _. by rewrite decide_True.
  - case_decide; [done|]. intros Hc. by rewrite IH.
Qed.

Lemma split_length sep s : length (split sep s) = S (count_char sep s).
Proof.
  induction s as [|c s IH]; simpl; [done|].
  case_decide; simpl; [by rewrite IH|].
  pose proof (split_nonempty sep s).
  destruct (split sep s); [done|]. simpl in *. lia.
Qed.

Lemma count_char_zeros c k s :
  c ≠ "0"%char → count_char c (zeros k s) = count_char c s.
Proof.
  intros Hc. induction k as [|k IH]; simpl; [done|].
  by rewrite decide_False by congruence.
Qed.

Lemma digit_is_no_dash k : k < 10 → ascii_of_nat (48 + k) ≠ "-"%char.
Proof.
  intros Hk. do 10 (destruct k as [|k]; [done|]). lia.
Qed.

Lemma count_dash_decimal fuel : ∀ n acc,
  count_char "-" (decimal_go fuel n acc) = count_char "-" acc.
Proof.
  induction fuel as [|fuel IH]; intros n acc; [done|].
  cbn [decimal_go].
  assert (count_char "-" (String (ascii_of_nat (48 + Nat.modulo n 10)) acc)
          = count_char "-" acc) as Hd.
  { cbn [count_char]. rewrite decide_False; [done|].
    apply digit_is_no_dash. apply Nat.mod_upper_bound. lia. }
  destruct (Nat.ltb n 10); [done|]. by rewrite IH.
Qed.

Lemma count_dash_field width n : count_char "-" (zfill width (str_nat n)) = 0.
Proof.
  unfold zfill, str_nat. rewrite count_char_zeros by done.
  by rewrite count_dash_decimal.
Qed.

Lemma split_str_date d :
  split "-" (str_date d)
  = [zfill 4 (str_nat (year d)); zfill 2 (str_nat (month d)); zfill 2 (str_nat (day d))].
Proof.
  unfold str_date.
  assert (∀ x, "-" +:+ x = String "-" x) as Hdash by done.
  rewrite !Hdash.
  rewrite !split_app_sep by apply count_dash_field.
  by rewrite split_no_sep by apply count_dash_field.
Qed.

Lemma int_day n : n ≤ 31 → int (zfill 2 (str_nat n)) = Ok (Z.of_nat n).
Proof.
  intros Hn. do 32 (destruct n as [|n]; [by vm_compute|]). lia.
Qed.

Lemma monthrange_last_days y m :
  1 ≤ m ≤ 12 →
  monthrange_last y m = Ok (days_in_month y m) ∧ 28 ≤ days_in_month y m ≤ 31.
Proof.
  intros [H1 H12]. unfold monthrange_last, days_in_month.
  destruct m as [|m]; [lia|].
  do 12 (destruct m as [|m]; [simpl; destruct (isleap y); simpl; split; (done || lia)|]).
  lia.
Qed.

End Strings.

(** Days to the end of the month.  For every date of the calendar,
    [days_until_end_month] returns the number of days left in the
    month: the day of the month plus the result is the month's last
    day, the result lies between 0 and 30, and it is 0 exactly on the
    last day.  None of the string operations on the way fails. *)
Theorem days_until_end_month_counts (today : date) :
  1 ≤ month today ≤ 12 →
  1 ≤ day today ≤ days_in_month (year today) (month today) →
  ∃ left : nat,
    Main.days_until_end_month today = Ok (Z.of_nat left)
    ∧ day today + left = days_in_month (year today) (month today)
    ∧ left ≤ 30
    ∧ (left = 0 ↔ day today = days_in_month (year today) (month today)).
Proof.
  intros Hm [Hd1 Hd2].
  destruct (monthrange_last_days (year today) (month today) Hm) as [Hlast [H28 H31]].
  exists (days_in_month (year today) (month today) - day today).
  split; [|lia].
  unfold Main.days_until_end_month. rewrite Hlast.
  unfold mbind, result_bind, mret, result_ret. rewrite rbind_ok.
  rewrite !split_str_date. cbn [getitem lookup list_lookup year month day].
  rewrite !rbind_ok, !int_day by lia.
  rewrite !rbind_ok. f_equal. lia.
Qed.

Lemma days_until_end_month_witness :
  ∃ left : nat,
    Main.days_until_end_month leap_day = Ok (Z.of_nat left)
    ∧ day leap_day + left = days_in_month (year leap_day) (month leap_day)
    ∧ left ≤ 30
    ∧ (left = 0 ↔ day leap_day = days_in_month (year leap_day) (month leap_day)).
Proof.
  apply (days_until_end_month_counts leap_day); vm_compute; lia.
Defined.

Section Sender.
Context (settings : Settings) (twilio : Twilio).

Lemma qualifies_fields tenant :
  qualifies tenant = true →
  ∃ f0 f3, split "," tenant !! 0 = Some f0
           ∧ split "," tenant !! 2 = Some "FALSE"
           ∧ split "," tenant !! 3 = Some f3.
Proof.
  unfold qualifies. intros [Hlen Hf]%andb_true_iff.
  apply Nat.ltb_lt in Hlen. apply bool_decide_eq_true in Hf.
  destruct (lookup_lt_is_Some_2 (split "," tenant) 0) as [f0 H0]; [lia|].
  destruct (lookup_lt_is_Some_2 (split "," tenant) 3) as [f3 H3]; [lia|].
  eauto.
Qed.

Lemma main_line_unqualified tenant c :
  qualifies tenant = false → Main.main_line settings twilio tenant c = (c, Ok tt).
Proof.
  intros Hq. unfold Main.main_line. cbv zeta. unfold qualifies in Hq.
  destruct (Nat.ltb 3 (length (split "," tenant))) eqn:Hlen; cbn [andb] in Hq; [|done].
  apply bool_decide_eq_false in Hq. unfold getitem.
  destruct (split "," tenant !! 2) as [f2|] eqn:H2.
  - unfold mbind, result_bind, mret, result_ret. rewrite rbind_ok.
    by rewrite bool_decide_eq_false_2 by congruence.
  - apply lookup_ge_None in H2. apply Nat.ltb_lt in Hlen. lia.
Qed.

Lemma main_line_qualified tenant c :
  qualifies tenant = true →
  Main.main_line settings twilio tenant c
  = Main.send_message settings twilio (Some (phone_of tenant)) (Some (name_of tenant)) c.
Proof.
  intros Hq. destruct (qualifies_fields tenant Hq) as (f0 & f3 & H0 & H2 & H3).
  unfold Main.main_line. cbv zeta.
  unfold qualifies in Hq. apply andb_true_iff in Hq as [Hlen _]. rewrite Hlen.
  unfold getitem, phone_of, name_of. rewrite H0, H2, H3.
  unfold mbind, result_bind, mret, result_ret. rewrite rbind_ok.
  by rewrite bool_decide_eq_true_2 by done.
Qed.

Lemma main_line_no_request tenant c :
  request_for settings tenant = None →
  Main.main_line settings twilio tenant c
  = ({| stdout := stdout c ++ skipping [tenant]; requests := requests c |}, Ok tt).
Proof.
  unfold request_for, skipping. cbn [omap list_omap].
  destruct (qualifies tenant) eqn:Hq.
  - cbn [andb]. destruct (bool_decide (phone_of tenant = "")) eqn:Hp; [|done].
    intros _. rewrite main_line_qualified by done.
    unfold Main.send_message. cbn [Main.truthy]. rewrite Hp.
    by cbn [negb Main.str_opt default from_option id].
  - intros _. rewrite main_line_unqualified by done.
    destruct c. cbn [stdout requests]. by rewrite app_nil_r.
Qed.

Lemma main_line_no_client tenant c e request :
  (∀ sid token, Client twilio sid token = Raise e) →
  request_for settings tenant = Some request →
  Main.main_line settings twilio tenant c = (c, Raise e).
Proof.
  intros Hclient. unfold request_for. destruct (qualifies tenant) eqn:Hq; [|done].
  cbn [andb]. destruct (bool_decide (phone_of tenant = "")) eqn:Hp; [done|].
  intros _. rewrite main_line_qualified by done.
  unfold Main.send_message. cbn [Main.truthy]. rewrite Hp. cbn [negb].
  by rewrite Hclient.
Qed.

Lemma skipping_app l1 l2 : skipping (l1 ++ l2) = skipping l1 ++ skipping l2.
Proof. apply omap_app. Qed.

Lemma main_line_request tenant c request :
  (∀ sid token, Client twilio sid token = Ok tt) →
  request_for settings tenant = Some request →
  Main.main_line settings twilio tenant c
  = ({| stdout := stdout c
                  ++ [match messages_create twilio (requests c) request with
                      | Ok sid => SentTo (name_of tenant) sid
                      | Raise e => FailedTo (name_of tenant) (phone_of tenant) e
                      end];
        requests := requests c ++ [request] |}, Ok tt).
Proof.
  intros Hclient. unfold request_for. destruct (qualifies tenant) eqn:Hq; [|done].
  cbn [andb]. destruct (bool_decide (phone_of tenant = "")) eqn:Hp; [done|].
  intros [= <-]. rewrite main_line_qualified by done.
  unfold Main.send_message. cbn [Main.truthy]. rewrite Hp. cbn [negb].
  rewrite Hclient. unfold greeting. cbn [Main.str_opt default from_option id].
  destruct (bool_decide (name_of tenant = "")); cbn [negb];
    by destruct (messages_create twilio _ _).
Qed.

Lemma main_loop_spec tenants : ∀ c,
  (∀ sid token, Client twilio sid token = Ok tt) →
  Main.main_loop settings twilio tenants c
  = ({| stdout := stdout c ++ transcript settings twilio (requests c) tenants;
        requests := requests c ++ omap (request_for settings) tenants |}, Ok tt).
Proof.
  induction tenants as [|tenant rest IH]; intros c Hclient.
  - destruct c. cbn. by rewrite !app_nil_r.
  - cbn [Main.main_loop transcript omap list_omap].
    destruct (request_for settings tenant) as [request|] eqn:Hreq.
    + assert (qualifies tenant = true) as ->.
      { unfold request_for in Hreq. by destruct (qualifies tenant). }
      rewrite (main_line_request tenant c request) by done.
      rewrite IH by done. cbn [stdout requests].
      by rewrite <- !(assoc_L (++)).
    + rewrite main_line_no_request by done. rewrite IH by done.
      cbn [stdout requests]. unfold skipping. cbn [omap list_omap].
      destruct (qualifies tenant); by rewrite <- ?(assoc_L (++)), ?app_nil_r.
Qed.

Lemma main_loop_no_request tenants : ∀ c,
  Forall (λ tenant, request_for settings tenant = None) tenants →
  Main.main_loop settings twilio tenants c
  = ({| stdout := stdout c ++ skipping tenants; requests := requests c |}, Ok tt).
Proof.
  induction tenants as [|tenant rest IH]; intros c Hall.
  - destruct c. cbn. by rewrite app_nil_r.
  - apply Forall_cons in Hall as [Hnone Hrest].
    cbn [Main.main_loop]. rewrite main_line_no_request by done.
    rewrite IH by done. cbn [stdout requests].
    by rewrite <- (assoc_L (++)), <- skipping_app.
Qed.

Lemma main_loop_app l1 : ∀ l2 c,
  Main.main_loop settings twilio (l1 ++ l2) c
  = match Main.main_loop settings twilio l1 c with
    | (c', Ok _) => Main.main_loop settings twilio l2 c'
    | (c', Raise e) => (c', Raise e)
    end.
Proof.
  induction l1 as [|tenant rest IH]; intros l2 c; [done|].
  cbn [app Main.main_loop].
  destruct (Main.main_line settings twilio tenant c) as [c' [[]|e]]; [apply IH|done].
Qed.

End Sender.

Section Blank.









End Blank.

(** What the sender does with a spreadsheet.  When the provider's
    client can be constructed, [main] works through the whole file and
    returns normally whatever the lines look like and whatever the
    provider answers: it never fails on a short line, and a refused
    message does not stop the later ones.  It issues exactly one
    request for every line with more than three comma-separated
    fields whose third field is FALSE and whose fourth field is not
    blank, in the order of the file, to the fourth field without its
    surrounding white space, and it prints one line (sent, failed or
    skipping) for each line with more than three fields whose third
    field is FALSE.  Strings here are sequences of code points below
    256. *)
Theorem main_one_request_per_due_line (settings : Settings) (twilio : Twilio)
    (tenants : list string) (c : Console) :
  (∀ sid token, Client twilio sid token = Ok tt) →
  Main.main settings twilio (Ok tenants) c
  = ({| stdout := stdout c ++ transcript settings twilio (requests c) tenants;
        requests := requests c ++ omap (request_for settings) tenants |}, Ok tt).
Proof. intros Hclient. cbn [Main.main]. by apply main_loop_spec. Qed.

Lemma main_one_request_witness :
  Main.main account flaky (Ok rent_sheet) nothing_yet
  = ({| stdout := stdout nothing_yet
                  ++ transcript account flaky (requests nothing_yet) rent_sheet;
        requests := requests nothing_yet ++ omap (request_for account) rent_sheet |},
     Ok tt).
Proof. apply (main_one_request_per_due_line account flaky rent_sheet nothing_yet). reflexivity. Defined.

(** Lines with at most two commas.  A file none of whose lines has more
    than two commas, such as the three-column table the page writes,
    makes [main] do nothing at all: nothing is printed, no request is
    issued, the provider's client is not even constructed, and [main]
    returns normally. *)
Theorem main_ignores_three_column_files (settings : Settings) (twilio : Twilio)
    (tenants : list string) (c : Console) :
  Forall (λ tenant, count_char "," tenant ≤ 2) tenants →
  Main.main settings twilio (Ok tenants) c = (c, Ok tt).
Proof.
  intros Hall. cbn [Main.main].
  rewrite main_loop_no_request.
  - assert (skipping tenants = []) as ->; [|destruct c; cbn; by rewrite app_nil_r].
    induction Hall as [|tenant rest Hle _ IH]; [done|].
    unfold skipping in *. cbn [omap list_omap]. unfold qualifies at 1.
    rewrite split_length.
    destruct (Nat.ltb_spec 3 (S (count_char "," tenant))); [lia|]. cbn [andb]. exact IH.
  - eapply Forall_impl; [exact Hall|]. intros tenant Hle. cbn beta in *.
    unfold request_for, qualifies. rewrite split_length.
    by destruct (Nat.ltb_spec 3 (S (count_char "," tenant))); [lia|].
Qed.

Lemma main_ignores_three_column_witness :
  Main.main account no_credentials (Ok canonical_lines) nothing_yet = (nothing_yet, Ok tt).
Proof.
  apply (main_ignores_three_column_files account no_credentials canonical_lines nothing_yet).
  apply (bool_decide_unpack _). vm_compute. reflexivity.
Defined.


(** Numbers of white space only.  When no line of the file leads to a
    request (each line is short, has another third field, or has a
    blank fourth field), [main] returns normally whatever the provider
    is, even one whose client cannot be constructed: it issues no
    request and prints one skipping line for each line whose third field
    is FALSE. *)
Theorem main_skips_blank_numbers (settings : Settings) (twilio : Twilio)
    (tenants : list string) (c : Console) :
  Forall (λ tenant, request_for settings tenant = None) tenants →
  Main.main settings twilio (Ok tenants) c
  = ({| stdout := stdout c ++ skipping tenants; requests := requests c |}, Ok tt).
Proof. intros Hall. by apply main_loop_no_request. Qed.

Lemma main_skips_blank_witness :
  Main.main account no_credentials (Ok blank_sheet) nothing_yet
  = ({| stdout := stdout nothing_yet ++ skipping blank_sheet;
        requests := requests nothing_yet |}, Ok tt).
Proof.
  apply (main_skips_blank_numbers account no_credentials blank_sheet nothing_yet).
  apply (bool_decide_unpack _). vm_compute. reflexivity.
Defined.

(** A client that cannot be constructed.  [send_message] constructs the
    provider's client outside its [try]: when construction raises,
    [main] stops at the first line that leads to a request and raises
    that exception; the lines after it are not looked at, no request
    has been issued, and only the skipping lines of the lines before it
    have been printed. *)
Theorem main_stops_without_client (settings : Settings) (twilio : Twilio) (e : Exn)
    (before after : list string) (tenant : string) (request : Request) (c : Console) :
  (∀ sid token, Client twilio sid token = Raise e) →
  Forall (λ tenant, request_for settings tenant = None) before →
  request_for settings tenant = Some request →
  Main.main settings twilio (Ok (before ++ tenant :: after)) c
  = ({| stdout := stdout c ++ skipping before; requests := requests c |}, Raise e).
Proof.
  intros Hclient Hbefore Hrequest. cbn [Main.main].
  rewrite main_loop_app, main_loop_no_request by done.
  cbn [Main.main_loop]. by erewrite main_line_no_client.
Qed.

Lemma main_stops_without_client_witness :
  Main.main account no_credentials
    (Ok (blank_sheet ++ "Al,10,FALSE,+1" :: rent_sheet)) nothing_yet
  = ({| stdout := stdout nothing_yet ++ skipping blank_sheet;
        requests := requests nothing_yet |}, Raise (OtherError "TwilioException")).
Proof.
  apply (main_stops_without_client account no_credentials (OtherError "TwilioException")
           blank_sheet rent_sheet "Al,10,FALSE,+1"
           {| body := greeting "Al"; from_ := "+14155550100"; to := "+1" |} nothing_yet).
  - reflexivity.
  - apply (bool_decide_unpack _). vm_compute. reflexivity.
  - vm_compute. reflexivity.
Defined.

(** * Further behaviour of the page *)

Section Clash.
Context (df : DataFrame) (n p : string).
Context (Hraw : raw_frame df).
Context (Hn : find is_name_col (columns df) = Some n).
Context (Hp : find is_phone_col (columns df) = Some p).
Context (Hclash : ¬ no_clash (columns df) n p).

Lemma NoDup_fmap_inj {A B} (f : A → B) (l : list A) a b :
  NoDup (f <$> l) → a ∈ l → b ∈ l → f a = f b → a = b.
Proof.
  induction l as [|x l IH]; intros Hnd Ha Hb E; [by apply elem_of_nil in Ha|].
  rewrite fmap_cons in Hnd. apply NoDup_cons in Hnd as [Hx Hnd].
  apply elem_of_cons in Ha as [->|Ha]; apply elem_of_cons in Hb as [->|Hb]; auto.
  - exfalso. apply Hx. rewrite E. by apply list_elem_of_fmap_2.
  - exfalso. apply Hx. rewrite <- E. by apply list_elem_of_fmap_2.
Qed.

Lemma name_is_no_phone_column : p ≠ "Name".
Proof. intros ->. by apply find_some in Hp as [_ Hp']. Qed.

Lemma phonenumber_is_no_name_column : n ≠ "PhoneNumber".
Proof. intros ->. by apply find_some in Hn as [_ Hn']. Qed.

Lemma rename_clash :
  rename (mapped_cols (DefaultLoad.map_name_phone (columns df))) df = Raise DuplicateError.
Proof.
  unfold rename. rewrite decide_False; [done|]. intros Hnd. apply Hclash.
  unfold columns in Hnd. rewrite <- list_fmap_compose in Hnd.
  change (NoDup ((renamed (mapped_cols (DefaultLoad.map_name_phone (columns df))) ∘ fst)
                   <$> df)) in Hnd.
  rewrite list_fmap_compose in Hnd. fold (columns df) in Hnd.
  pose proof name_is_no_phone_column. pose proof phonenumber_is_no_name_column.
  split; intros Hin.
  - destruct (decide (n = "Name")) as [|Hne]; [done|].
    apply (NoDup_fmap_inj _ _ n "Name" Hnd); [by apply name_in_columns|done|].
    rewrite (renamed_name df n p Hn Hp).
    by rewrite (renamed_other df n p Hn Hp "Name").
  - destruct (decide (p = "PhoneNumber")) as [|Hne]; [done|].
    apply (NoDup_fmap_inj _ _ p "PhoneNumber" Hnd); [by apply phone_in_columns|done|].
    rewrite (renamed_phone df n p Hn Hp).
    by rewrite (renamed_other df n p Hn Hp "PhoneNumber").
Qed.

Lemma normalize_clash : normalize df = Raised DuplicateError false.
Proof.
  unfold normalize. cbv zeta.
  rewrite (found_both df n p) by done. by rewrite rename_clash.
Qed.

End Clash.

(** Renaming onto a column that is already there, in general.  Whenever
    the name and phone columns are resolvable but the file already has
    another column called Name or PhoneNumber (so that the rename would
    give two columns one name), the frame library refuses the rename and
    nothing of the file is carried over: the default load shows the
    processing error and starts from the empty table, the upload shows
    the error and leaves the stored table as it was.  Neither announces
    a flag default. *)
Theorem rename_clash_rejects_the_file (df : DataFrame) (n p : string) (w : World) :
  raw_frame df →
  find is_name_col (columns df) = Some n →
  find is_phone_col (columns df) = Some p →
  ¬ no_clash (columns df) n p →
  normalize df = Raised DuplicateError false
  ∧ DefaultLoad.load {| recipients_df := None; csv_file := Some (Ok df); page := page w |}
    = ({| recipients_df := Some (empty_frame recipients_schema);
          csv_file := Some (Ok df);
          page := page w
                  ++ [(Error, ProcessingError DefaultLoad.default_csv DuplicateError)] |},
       Ok tt)
  ∧ Upload.upload (Some (Ok df)) w
    = ({| recipients_df := recipients_df w;
          csv_file := csv_file w;
          page := page w ++ [(Error, ProcessingError "uploaded file" DuplicateError)] |},
       Ok tt).
Proof.
  intros Hraw Hn Hp Hclash.
  pose proof (normalize_clash df n p Hn Hp Hclash) as Hnorm.
  split_and!; [done| |].
  - rewrite (load_normalize _ df) by done. rewrite Hnorm. cbn. by rewrite app_nil_r.
  - rewrite upload_normalize, Hnorm. cbn. by rewrite app_nil_r.
Qed.

Lemma rename_clash_witness :
  normalize tenant_and_name = Raised DuplicateError false
  ∧ DefaultLoad.load
      {| recipients_df := None; csv_file := Some (Ok tenant_and_name);
         page := page (holding two_recipients) |}
    = ({| recipients_df := Some (empty_frame recipients_schema);
          csv_file := Some (Ok tenant_and_name);
          page := page (holding two_recipients)
                  ++ [(Error, ProcessingError DefaultLoad.default_csv DuplicateError)] |},
       Ok tt)
  ∧ Upload.upload (Some (Ok tenant_and_name)) (holding two_recipients)
    = ({| recipients_df := recipients_df (holding two_recipients);
          csv_file := csv_file (holding two_recipients);
          page := page (holding two_recipients)
                  ++ [(Error, ProcessingError "uploaded file" DuplicateError)] |},
       Ok tt).
Proof.
  apply (rename_clash_rejects_the_file tenant_and_name "Tenant" "Phone"
           (holding two_recipients)).
  - by apply concrete_raw.
  - reflexivity.
  - reflexivity.
  - intros [Hname _]. assert ("Tenant" = "Name") as E; [|discriminate E].
    apply Hname. apply (bool_decide_unpack _). vm_compute. reflexivity.
Defined.

Section UploadOutcome.

(** The upload either replaces the table or leaves it. *)
Lemma upload_outcome read w :
  ∃ notes, page (Upload.upload (Some read) w).1 = page w ++ notes
    ∧ ((∃ t, recipients_df (Upload.upload (Some read) w).1 = Some t
             ∧ schema t = recipients_schema ∧ flags_total t
             ∧ last notes = Some (Success, UploadProcessed))
       ∨ (recipients_df (Upload.upload (Some read) w).1 = recipients_df w
          ∧ ∃ m, last notes = Some (Error, m))).
Proof.
  destruct read as [df|e].
  - rewrite upload_normalize.
    destruct (normalize df) as [t d|roles|e d] eqn:Hnorm; cbn.
    + exists (announce d Upload.uploaded_csv ++ [(Success, UploadProcessed)]).
      split; [by rewrite (assoc_L (++))|]. left. exists t.
      destruct (normalize_stored df t d Hnorm) as [Hs Hf].
      split_and!; try done. by rewrite last_snoc.
    + eexists. split; [done|]. right. split; [done|]. by eexists.
    + exists (announce d Upload.uploaded_csv ++ [(Error, ProcessingError "uploaded file" e)]).
      split; [by rewrite (assoc_L (++))|]. right. split; [done|].
      eexists. by rewrite last_snoc.
  - exists [(Error, ProcessingError "uploaded file" e)]. split; [done|].
    right. split; [done|]. by eexists.
Qed.

Lemma upload_keeps_file file w :
  csv_file (Upload.upload file w).1 = csv_file w.
Proof.
  destruct file as [[df|e]|]; [| |done].
  - rewrite upload_normalize. by destruct (normalize df).
  - done.
Qed.

End UploadOutcome.

(** The upload is all or nothing.  Whatever the uploaded bytes turn out
    to be (unreadable, without a name or phone column, refused by the
    frame library, or fine), the upload returns normally, never touches
    the file on disk, only adds notices to the page, and does exactly
    one of two things: it replaces the stored table by a table with the
    three schema columns and a flag in every row and ends on the success
    notice, or it leaves the stored table exactly as it was and ends on
    an error notice. *)
Theorem upload_all_or_nothing (read : result DataFrame) (w : World) :
  (Upload.upload (Some read) w).2 = Ok tt
  ∧ csv_file (Upload.upload (Some read) w).1 = csv_file w
  ∧ ∃ notes, page (Upload.upload (Some read) w).1 = page w ++ notes
    ∧ ((∃ t, recipients_df (Upload.upload (Some read) w).1 = Some t
             ∧ schema t = recipients_schema ∧ flags_total t
             ∧ last notes = Some (Success, UploadProcessed))
       ∨ (recipients_df (Upload.upload (Some read) w).1 = recipients_df w
          ∧ ∃ m, last notes = Some (Error, m))).
Proof.
  split_and!.
  - apply upload_returns.
  - apply upload_keeps_file.
  - apply upload_outcome.
Qed.

Section NullFlags.
Context (names phones : list (option string)) (flags : list (option bool)).
Context (Hnames : length names = length flags).
Context (Hphones : length phones = length flags).

Let t : DataFrame :=
  [("Name", SUtf8 names); ("PhoneNumber", SUtf8 phones); ("SendFlag", SBool flags)].

Lemma written_three :
  written t =
    [("Name", SUtf8 names); ("PhoneNumber", SUtf8 phones);
     ("SendFlag", SUtf8 ((λ v : option bool, bool_text <$> v) <$> flags))].
Proof. reflexivity. Qed.

Lemma written_three_raw : raw_frame (written t).
Proof.
  rewrite written_three. split.
  - apply (bool_decide_unpack _). by vm_compute.
  - intros c s. simpl.
    repeat case_decide; intros [= <-]; eexists; (split; [done|]);
      rewrite ?length_fmap; congruence.
Qed.

Lemma null_flags_read_back :
  (λ v, Some (flag_value true v)) <$> ((λ v : option bool, bool_text <$> v) <$> flags)
  = (λ v : option bool, Some (default false v)) <$> flags.
Proof.
  rewrite <- list_fmap_compose. apply list_fmap_ext.
  by intros _ [[]|] _.
Qed.

Lemma normalize_written_three :
  normalize (written t)
  = Stored [("Name", SUtf8 names); ("PhoneNumber", SUtf8 phones);
            ("SendFlag", SBool ((λ v : option bool, Some (default false v)) <$> flags))]
           false.
Proof.
  rewrite (normalize_ok (written t) "Name" "PhoneNumber").
  - rewrite written_three.
    set (raw := [("Name", SUtf8 names); ("PhoneNumber", SUtf8 phones);
                 ("SendFlag", SUtf8 ((λ v : option bool, bool_text <$> v) <$> flags))]).
    change (columns raw) with ["Name"; "PhoneNumber"; "SendFlag"].
    assert (DefaultLoad.find_send_col
              (mapped_cols (DefaultLoad.map_name_phone ["Name"; "PhoneNumber"; "SendFlag"]))
              ["Name"; "PhoneNumber"; "SendFlag"]
            = {| send_col_source := Some "SendFlag"; send_flag_interpretation := true |})
      as -> by (vm_compute; reflexivity).
    unfold send_flags. cbn [send_col_source send_flag_interpretation].
    assert (get_column "Name" raw = Some (SUtf8 names)) as -> by reflexivity.
    assert (get_column "PhoneNumber" raw = Some (SUtf8 phones)) as -> by reflexivity.
    assert (get_column "SendFlag" raw
            = Some (SUtf8 ((λ v : option bool, bool_text <$> v) <$> flags)))
      as -> by reflexivity.
    cbn [text_of]. unfold flag_series. rewrite null_flags_read_back.
    by rewrite bool_decide_eq_false_2.
  - apply written_three_raw.
  - by rewrite written_three.
  - by rewrite written_three.
  - by rewrite written_three.
Qed.

End NullFlags.

(** Saving and starting again, with empty flags.  The editor can leave
    a flag without a value.  Saving such a table and starting a new
    session (which loads the saved file) keeps every name and phone
    number and every flag that has a value, and turns each flag without
    a value into false: the recipient is not sent to.  No warning
    accompanies it. *)
Theorem reload_turns_empty_flags_off (names phones : list (option string))
    (flags : list (option bool)) (w : World) :
  length names = length flags →
  length phones = length flags →
  flags ≠ [] →
  recipients_df w
  = Some [("Name", SUtf8 names); ("PhoneNumber", SUtf8 phones); ("SendFlag", SBool flags)] →
  DefaultLoad.load (fresh (csv_file (save true None w).1))
  = ({| recipients_df :=
          Some [("Name", SUtf8 names); ("PhoneNumber", SUtf8 phones);
                ("SendFlag", SBool ((λ v : option bool, Some (default false v)) <$> flags))];
        csv_file := csv_file (save true None w).1;
        page := [] |}, Ok tt).
Proof.
  intros Hn Hp Hne Hw.
  assert (csv_file (save true None w).1
          = Some (Ok (written [("Name", SUtf8 names); ("PhoneNumber", SUtf8 phones);
                               ("SendFlag", SBool flags)]))) as ->.
  { unfold save. run_script. rewrite Hw. run_script.
    rewrite bool_decide_eq_false_2; [done|].
    cbn. destruct names; [|done]. destruct flags; done. }
  unfold fresh.
  rewrite (load_normalize _ (written [("Name", SUtf8 names); ("PhoneNumber", SUtf8 phones);
                                      ("SendFlag", SBool flags)])) by done.
  by rewrite (normalize_written_three names phones flags Hn Hp).
Qed.

Lemma reload_empty_flags_witness :
  DefaultLoad.load (fresh (csv_file (save true None (holding unticked)).1))
  = ({| recipients_df :=
          Some [("Name", SUtf8 [Some "Alice"; Some "Bob"]);
                ("PhoneNumber", SUtf8 [Some "+15551230000"; None]);
                ("SendFlag",
                 SBool ((λ v : option bool, Some (default false v)) <$> [Some true; None]))];
        csv_file := csv_file (save true None (holding unticked)).1;
        page := [] |}, Ok tt).
Proof.
  apply (reload_turns_empty_flags_off [Some "Alice"; Some "Bob"]
           [Some "+15551230000"; None] [Some true; None] (holding unticked));
    first [reflexivity | discriminate].
Defined.

Section Casting.

Lemma cast_fixed (t : DataFrame) :
  schema t = recipients_schema → cast recipients_schema t = Ok t.
Proof.
  intros Hs. pose proof (schema_columns t Hs) as Hc.
  apply three_columns in Hc as (s1 & s2 & s3 & ->).
  by destruct s1, s2, s3.
Qed.

Lemma cast_missing (df : DataFrame) c :
  c ∈ ["Name"; "PhoneNumber"; "SendFlag"] → c ∉ columns df →
  cast recipients_schema df = Raise ColumnNotFoundError.
Proof.
  intros Hc Hnot. apply get_column_None in Hnot.
  unfold recipients_schema. cbn [cast].
  destruct (get_column "Name" df) as [s1|] eqn:H1; [|done].
  rewrite get_column_replace_ne by done.
  destruct (get_column "PhoneNumber" df) as [s2|] eqn:H2; [|done].
  rewrite !get_column_replace_ne by done.
  destruct (get_column "SendFlag" df) as [s3|] eqn:H3; [|done].
  split_elem; congruence.
Qed.

End Casting.

(** An idle run.  Once the stored table has the schema, a run in which
    nothing is uploaded, the editor hands back the table it was shown
    and the save button is not pressed changes nothing: the same table
    is stored (the cast is the identity on it), the file is as it was,
    and the page carries no notice. *)
Theorem idle_run_changes_nothing (i : Inputs) (w : World) (t : DataFrame) :
  recipients_df w = Some t →
  schema t = recipients_schema →
  uploaded_file i = None →
  data_editor i t = EditedPolars t ∨ data_editor i t = EditedPandas (Ok t)
  ∨ data_editor i t = EditedNone →
  save_clicked i = false →
  rerun i w = ({| recipients_df := Some t; csv_file := csv_file w; page := [] |}, Ok tt).
Proof.
  intros Hw Hs Hup Hed Hsave. unfold rerun, script. rewrite Hw.
  unfold mbind, M_bind. rewrite (load_present _ t) by done.
  rewrite Hup, Hsave. cbn [Upload.upload mret M_ret save].
  unfold edit, get_recipients_df, mbind, M_bind.
  cbn [recipients_df default from_option id].
  destruct Hed as [->|[->| ->]].
  - unfold set_recipients_df, lift. cbn [recipients_df csv_file page].
    by rewrite (cast_fixed t Hs).
  - unfold try_except, set_recipients_df, lift, mbind, M_bind.
    cbn [recipients_df csv_file page]. by rewrite (cast_fixed t Hs).
  - done.
Qed.

Lemma idle_run_witness :
  rerun (idle EditedPolars) (holding two_recipients)
  = ({| recipients_df := Some two_recipients;
        csv_file := csv_file (holding two_recipients); page := [] |}, Ok tt).
Proof.
  apply (idle_run_changes_nothing (idle EditedPolars) (holding two_recipients)
           two_recipients); first [reflexivity | by left].
Defined.

(** The editor's frame is stored before it is cast.  When the editor
    hands back a frame that lacks one of the three schema columns, the
    frame is already in the session state when the cast fails: with a
    Polars frame the exception leaves the script (the cast is outside any
    [try]), with a pandas frame it is caught and shown; either way the
    session now holds the frame as the editor gave it, which does not
    have the schema. *)
Theorem edit_stores_before_casting (editor : DataFrame → Edited) (w : World)
    (edited_df : DataFrame) (c : string) :
  c ∈ ["Name"; "PhoneNumber"; "SendFlag"] →
  c ∉ columns edited_df →
  (editor (shown w) = EditedPolars edited_df →
   edit editor w
   = ({| recipients_df := Some edited_df; csv_file := csv_file w; page := page w |},
      Raise ColumnNotFoundError))
  ∧ (editor (shown w) = EditedPandas (Ok edited_df) →
     edit editor w
     = ({| recipients_df := Some edited_df; csv_file := csv_file w;
           page := page w ++ [(Error, EditError ColumnNotFoundError)] |}, Ok tt))
  ∧ schema edited_df ≠ recipients_schema.
Proof.
  intros Hc Hnot. pose proof (cast_missing edited_df c Hc Hnot) as Hcast.
  split_and!.
  - intros Hed. unfold edit, get_recipients_df, mbind, M_bind. fold (shown w).
    rewrite Hed. unfold set_recipients_df, lift. cbn [recipients_df csv_file page].
    by rewrite Hcast.
  - intros Hed. unfold edit, get_recipients_df, mbind, M_bind. fold (shown w).
    rewrite Hed. unfold try_except, set_recipients_df, lift, mbind, M_bind.
    cbn [recipients_df csv_file page]. by rewrite Hcast.
  - intros Hs. apply schema_columns in Hs. rewrite Hs in Hnot. done.
Qed.

Lemma edit_stores_before_casting_witness :
  ((λ _, EditedPolars foo_bar) (shown (holding two_recipients)) = EditedPolars foo_bar →
   edit (λ _, EditedPolars foo_bar) (holding two_recipients)
   = ({| recipients_df := Some foo_bar; csv_file := csv_file (holding two_recipients);
         page := page (holding two_recipients) |},
      Raise ColumnNotFoundError))
  ∧ ((λ _, EditedPolars foo_bar) (shown (holding two_recipients))
     = EditedPandas (Ok foo_bar) →
     edit (λ _, EditedPolars foo_bar) (holding two_recipients)
     = ({| recipients_df := Some foo_bar; csv_file := csv_file (holding two_recipients);
           page := page (holding two_recipients)
                   ++ [(Error, EditError ColumnNotFoundError)] |}, Ok tt))
  ∧ schema foo_bar ≠ recipients_schema.
Proof.
  apply (edit_stores_before_casting (λ _, EditedPolars foo_bar) (holding two_recipients)
           foo_bar "Name").
  - apply (bool_decide_unpack _). vm_compute. reflexivity.
  - apply (bool_decide_unpack _). vm_compute. reflexivity.
Defined.

Section Blind.

Lemma blind_then (m k : M unit) : blind m → blind k → blind (m ;; k).
Proof.
  intros Hm Hk w1 w2 H1 H2. unfold mbind, M_bind.
  destruct (Hm w1 w2 H1 H2) as (Hr & Hp & Hres).
  destruct (m w1) as [w1' r1], (m w2) as [w2' r2]. cbn in Hr, Hp, Hres. subst r2.
  destruct r1 as [[]|e]; [by apply Hk|]. by split_and!.
Qed.

Lemma blind_upload file : blind (Upload.upload file).
Proof.
  intros w1 w2 H1 H2. unfold same_session.
  destruct file as [[df|e]|].
  - rewrite !upload_normalize.
    destruct (normalize df) as [t d|roles|e d]; cbn; by rewrite ?H1, ?H2.
  - change (Upload.upload (Some (Raise e)) w1) with (upload_handler e w1).
    change (Upload.upload (Some (Raise e)) w2) with (upload_handler e w2).
    unfold upload_handler. cbn [fst snd recipients_df page]. by rewrite H1, H2.
  - done.
Qed.

Lemma blind_edit editor : blind (edit editor).
Proof.
  intros w1 w2 H1 H2. unfold same_session, edit, get_recipients_df, mbind, M_bind.
  rewrite H1.
  destruct (editor (default (empty_frame recipients_schema) (recipients_df w2)))
    as [|df'|[df'|e]|].
  - done.
  - unfold set_recipients_df, lift. cbn [recipients_df csv_file page].
    by destruct (cast recipients_schema df'); cbn.
  - unfold try_except, set_recipients_df, lift, mbind, M_bind.
    cbn [recipients_df csv_file page].
    destruct (cast recipients_schema df') as [out|e]; cbn; [done|].
    destruct e; cbn; by rewrite H2.
  - unfold try_except, lift, mbind, M_bind. destruct e; cbn; by rewrite H1, H2.
  - cbn. by rewrite H1, H2.
Qed.

Lemma blind_save clicked io : blind (save clicked io).
Proof.
  intros w1 w2 H1 H2. unfold same_session, save.
  destruct clicked; [|done].
  unfold get_recipients_df, mbind, M_bind. rewrite H1.
  destruct (recipients_df w2) as [df|] eqn:Hdf; [|cbn; by rewrite H1, H2].
  destruct (negb (bool_decide (height df = 0))); [|cbn; by rewrite H1, H2].
  unfold try_except, write_csv, mbind, M_bind.
  destruct io as [e|]; cbn; by rewrite H1, H2.
Qed.

Lemma blind_after_load i :
  blind (Upload.upload (uploaded_file i);; edit (data_editor i);;
         save (save_clicked i) (write_failure i)).
Proof.
  apply blind_then; [apply blind_upload|].
  apply blind_then; [apply blind_edit|apply blind_save].
Qed.

Lemma load_then (k : M unit) w t :
  recipients_df w = Some t → (DefaultLoad.load;; k) w = k w.
Proof. intros Hw. unfold mbind, M_bind. by rewrite (load_present w t). Qed.


End Blind.

(** The stored table shadows the file.  Once a table is held in the
    session, a run does not look at the default file any more: whatever
    is on disk under its path (nothing, something unreadable, another
    table), the run stores the same table, shows the same notices and
    ends the same way.  Changes made to the file from outside are not
    picked up until a new session starts. *)
Theorem stored_table_shadows_the_file (i : Inputs) (w : World) (t : DataFrame)
    (file : option (result DataFrame)) :
  recipients_df w = Some t →
  recipients_df (rerun i w).1
  = recipients_df
      (rerun i {| recipients_df := recipients_df w; csv_file := file; page := page w |}).1
  ∧ page (rerun i w).1
    = page (rerun i {| recipients_df := recipients_df w; csv_file := file;
                       page := page w |}).1
  ∧ (rerun i w).2
    = (rerun i {| recipients_df := recipients_df w; csv_file := file; page := page w |}).2.
Proof.
  intros Hw.
  change (same_session (rerun i w)
            (rerun i {| recipients_df := recipients_df w; csv_file := file;
                        page := page w |})).
  unfold rerun, script. cbn [recipients_df csv_file page].
  rewrite !(load_then _ _ t) by done.
  by apply blind_after_load.
Qed.

Lemma stored_table_shadows_witness :
  recipients_df (rerun (upload_and_save tenants) (holding two_recipients)).1
  = recipients_df
      (rerun (upload_and_save tenants)
         {| recipients_df := recipients_df (holding two_recipients);
            csv_file := Some (Ok foo_bar);
            page := page (holding two_recipients) |}).1
  ∧ page (rerun (upload_and_save tenants) (holding two_recipients)).1
    = page (rerun (upload_and_save tenants)
              {| recipients_df := recipients_df (holding two_recipients);
                 csv_file := Some (Ok foo_bar);
                 page := page (holding two_recipients) |}).1
  ∧ (rerun (upload_and_save tenants) (holding two_recipients)).2
    = (rerun (upload_and_save tenants)
         {| recipients_df := recipients_df (holding two_recipients);
            csv_file := Some (Ok foo_bar);
            page := page (holding two_recipients) |}).2.
Proof.
  apply (stored_table_shadows_the_file (upload_and_save tenants) (holding two_recipients)
           two_recipients (Some (Ok foo_bar))).
  reflexivity.
Defined.


(** The stored schedule type is not read back.  The tab stores the
    type under a shorter label than the option the user chose (Specific
    Day for Specific Day of Month, Manual for Manual Trigger Only), and
    looks the stored label up among the options to place the select box.
    So after a run that took the end-of-month branch the index computed
    from the stored schedule is that of End of Month, and after either
    other branch it is the fallback, the index of Manual Trigger Only:
    a stored Specific Day is never found. *)
Theorem stored_schedule_type_is_not_read_back (ui : ScheduleWidgets)
    (schedule schedule' : Schedule) (said : Said) :
  schedule_tab ui schedule = (schedule', Ok said) →
  schedule_index schedule'
  = Ok (match said with DaysBeforeEnd _ => 0 | OnDay _ => 2 | ManuallyOnly => 2 end).
Proof.
  unfold schedule_tab.
  destruct (schedule_index schedule) as [index|e]; [|done].
  repeat case_decide.
  - destruct (number_input ui _ _ _); [|done]. by intros [= <- <-].
  - destruct (number_input ui _ _ _); [|done]. by intros [= <- <-].
  - by intros [= <- <-].
Qed.

Lemma stored_schedule_type_witness :
  schedule_index
    {| type := Some "Specific Day"; days_before_end := Some 3%Z; day_of_month := Some 1%Z |}
  = Ok (match OnDay 1 with DaysBeforeEnd _ => 0 | OnDay _ => 2 | ManuallyOnly => 2 end).
Proof.
  apply (stored_schedule_type_is_not_read_back picks_day initial_schedule
           {| type := Some "Specific Day"; days_before_end := Some 3%Z;
              day_of_month := Some 1%Z |} (OnDay 1)).
  reflexivity.
Defined.
